(** * ansible-cvp: container reconciliation (cv_container_v3) and module entry points

    A shallow embedding of
    - [plugins/modules/cv_container_v3.py]: the ordering resolver
      [list_container_from_top], the remote helpers [is_container_exist],
      [container_get_root], [container_get_id], the action [container_create],
      the manager [manager_containers_create] and the [__main__] block;
    - [plugins/modules/cv_device_v3.py]: [check_import] and the [__main__] block.

    Python dictionaries are association lists in insertion order, the CVP
    client (cvprac) is an interface over an abstract server state, and the
    Python code runs in a small state-and-exception monad that also records
    every remote call. *)

From Stdlib Require Import String List ZArith Lia Bool Arith.
Import ListNotations.
Open Scope string_scope.
Open Scope list_scope.

Set Implicit Arguments.

(** ** Python dictionaries *)

Module Py.

(** A [dict] with string keys, in insertion order. A Python dictionary holds
    each key once: [wf]. *)
Definition dict (V : Type) : Type := list (string * V).

Definition keys {V} (d : dict V) : list string := map fst d.

Definition wf {V} (d : dict V) : Prop := NoDup (keys d).

(** [d[k]]: [None] stands for [KeyError]. *)
Fixpoint get {V} (k : string) (d : dict V) : option V :=
  match d with
  | [] => None
  | (k', v) :: d' => if String.eqb k k' then Some v else get k d'
  end.

(** [len(d)] *)
Definition len {V} (d : dict V) : nat := List.length d.

End Py.

(** ** Data model *)

(** One entry of the user's topology: [parent_container] and the optional
    lists the module accepts next to it. *)
Record ContainerSpec : Type := {
  parent_container : string;
  configlets : list string;
  devices : list string;
  images : list string
}.

Definition UserTopology : Type := Py.dict ContainerSpec.

(** A container given only by its parent. *)
Definition child_of (parent : string) : ContainerSpec :=
  {| parent_container := parent; configlets := []; devices := []; images := [] |}.

(** ** The ordering resolver *)

(** [x == y] where [y] may be Python's [None] (what [container_get_root]
    returns when the topology request failed): a string never equals [None]. *)
Definition eq_opt (x : string) (y : option string) : bool :=
  match y with
  | Some s => String.eqb x s
  | None => false
  end.

(** [any(element == x for element in result_list)] *)
Definition any_eq (x : string) (result_list : list string) : bool :=
  existsb (fun element => String.eqb element x) result_list.

(** The body of the [for] loop of [list_container_from_top] for one key
    [container] with value [spec = container_list[container]]: two
    independent [if]s, each appending [container]. *)
Definition place (container_root_name : option string)
    (result_list : list string) (item : string * ContainerSpec) : list string :=
  let '(container, spec) := item in
  let result_list :=
    if eq_opt (parent_container spec) container_root_name
    then result_list ++ [container] else result_list in
  if any_eq (parent_container spec) result_list
  then result_list ++ [container] else result_list.

(** One execution of [for container in container_list: ...]. *)
Definition scan (container_list : UserTopology) (container_root_name : option string)
    (result_list : list string) : list string :=
  fold_left (place container_root_name) container_list result_list.

(** [while(len(result_list) < len(container_list)+1): <scan>]. Each unit of
    [fuel] pays for one evaluation of the loop condition; [None] means the
    fuel ran out with the loop still running. *)
Fixpoint resolve_loop (fuel : nat) (container_list : UserTopology)
    (container_root_name : option string) (result_list : list string)
    : option (list string) :=
  match fuel with
  | O => None
  | S fuel' =>
      if Nat.ltb (List.length result_list) (Py.len container_list + 1)
      then resolve_loop fuel' container_list container_root_name
             (scan container_list container_root_name result_list)
      else Some result_list
  end.

Definition list_container_from_top (fuel : nat) (container_list : UserTopology)
    (container_root_name : option string) : option (list string) :=
  resolve_loop fuel container_list container_root_name [].

(** ** The CVP client (cvprac)

    The client library is outside the repository. The code uses three of its
    calls; each either returns or raises, and may change the server. *)

Inductive reply (A : Type) : Type :=
| Reply (a : A)
| Fails.
Arguments Fails {A}.

(** What [add_container] answers: [resp['data']['status']] and
    [resp['data']['taskIds']]. *)
Record AddResponse : Type := {
  data_status : string;
  data_taskIds : list string
}.

Record CvpClient (W : Type) : Type := {
  (** [api.filter_topology(node_id=...)], read at [['topology']['name']] *)
  filter_topology : string -> W -> reply string * W;
  (** [api.get_container_by_name(name=...)]: a dictionary or [None] *)
  get_container_by_name : string -> W -> reply (option (Py.dict string)) * W;
  (** [api.add_container(container_name=..., parent_name=..., parent_key=...)] *)
  add_container : string -> string -> option string -> W -> reply AddResponse * W
}.

(** ** Running Python code against a client *)

Inductive call : Type :=
| CallFilterTopology (node_id : string)
| CallGetContainerByName (name : string)
| CallAddContainer (container_name parent_name : string) (parent_key : option string).

Inductive exn : Type :=
| KeyError (key : string)
| NameError (name : string)
| CvpError.

(** The three ways a piece of code can end: a value, an exception on its way
    up, or a [while] loop that used up its fuel. *)
Inductive res (A : Type) : Type :=
| Ret (a : A)
| Raise (e : exn)
| Diverge.
Arguments Raise {A} e.
Arguments Diverge {A}.

Record run_state (W : Type) : Type := {
  world : W;
  calls : list call
}.

Definition M (W A : Type) : Type := run_state W -> res A * run_state W.

Definition ret {W A} (a : A) : M W A := fun s => (Ret a, s).

Definition raise {W A} (e : exn) : M W A := fun s => (Raise e, s).

Definition bind {W A B} (m : M W A) (k : A -> M W B) : M W B :=
  fun s =>
    match m s with
    | (Ret a, s') => k a s'
    | (Raise e, s') => (Raise e, s')
    | (Diverge, s') => (Diverge, s')
    end.

(** [try: m  except: handler  else: orelse]. The bare [except] catches every
    exception of [m]; those of [handler] and [orelse] go up. *)
Definition try_except_else {W A B} (m : M W A) (handler : M W B) (orelse : A -> M W B)
    : M W B :=
  fun s =>
    match m s with
    | (Ret a, s') => orelse a s'
    | (Raise _, s') => handler s'
    | (Diverge, s') => (Diverge, s')
    end.

(** [try: m  except: handler] *)
Definition try_except {W A} (m : M W A) (handler : M W A) : M W A :=
  try_except_else m handler ret.

Declare Scope py_scope.
Delimit Scope py_scope with py.
Notation "x <- m ;; k" := (bind m (fun x => k))
  (at level 61, m at next level, right associativity) : py_scope.
Open Scope py_scope.

(** A remote call: logged, then answered by the client; a failing call raises. *)
Definition remote {W A} (c : call) (f : W -> reply A * W) : M W A :=
  fun s =>
    let '(r, w) := f (world s) in
    let s' := {| world := w; calls := calls s ++ [c] |} in
    match r with
    | Reply a => (Ret a, s')
    | Fails => (Raise CvpError, s')
    end.

(** [taskIds]: the string ['UNSET'] or the list the server sent. *)
Inductive task_ids : Type :=
| UNSET
| TaskIds (ids : list string).

(** The dictionary [container_create] returns. *)
Record ActionResult : Type := {
  success : bool;
  taskIDs : task_ids;
  container : string
}.

(** The dictionary [manager_containers_create] returns. *)
Record CreationResult : Type := {
  count_new_containers : Z;
  list_new_containers : list string
}.

Section Module_cv_container_v3.

Context {W : Type}.
(** [cv_connection] *)
Variable cv_connection : CvpClient W.
(** [ANSIBLE_MODULE.check_mode] *)
Variable check_mode : bool.

Definition api_filter_topology (node_id : string) : M W string :=
  remote (CallFilterTopology node_id) (filter_topology cv_connection node_id).

Definition api_get_container_by_name (name : string) : M W (option (Py.dict string)) :=
  remote (CallGetContainerByName name) (get_container_by_name cv_connection name).

Definition api_add_container (container_name parent_name : string)
    (parent_key : option string) : M W AddResponse :=
  remote (CallAddContainer container_name parent_name parent_key)
         (add_container cv_connection container_name parent_name parent_key).

Definition is_container_exist (container : string) : M W bool :=
  try_except
    (r <- api_get_container_by_name container ;;
     match r with
     | Some _ => ret true
     | None => ret false
     end)
    (ret false).

Definition container_get_root : M W (option string) :=
  try_except_else (api_filter_topology "root")
    (ret None)
    (fun cv_result => ret (Some cv_result)).

(** [result] starts as [dict()] and keeps that value when the call raises. *)
Definition container_get_id (container : string) : M W (option string) :=
  result <- try_except (api_get_container_by_name container) (ret (Some [])) ;;
  match result with
  | Some d =>
      match Py.get "key" d with
      | Some key => ret (Some key)
      | None => raise (KeyError "key")
      end
  | None => ret None
  end.

Definition container_create (container parent : string) : M W ActionResult :=
  parent_exists <- is_container_exist parent ;;
  if parent_exists then
    parent_id <- container_get_id parent ;;
    taskIds <-
      (if check_mode then ret UNSET
       else
         try_except_else (api_add_container container parent parent_id)
           (ret UNSET)
           (fun resp =>
              if String.eqb (data_status resp) "success"
              then ret (TaskIds (data_taskIds resp))
              else ret UNSET)) ;;
    ret {| success := true; taskIDs := taskIds; container := container |}
  else
    ret {| success := false; taskIDs := UNSET; container := container |}.

(** [user_topology[name]['parent_container']] *)
Definition topology_parent (user_topology : UserTopology) (name : string) : M W string :=
  match Py.get name user_topology with
  | Some spec => ret (parent_container spec)
  | None => raise (KeyError name)
  end.

(** The body of the [for] loop of [manager_containers_create], on the two
    accumulators [containers_created_counter] and [containers_created]. *)
Definition create_step (user_topology : UserTopology)
    (acc : Z * list string) (user_container_name : string) : M W (Z * list string) :=
  let '(containers_created_counter, containers_created) := acc in
  parent <- topology_parent user_topology user_container_name ;;
  parent_exists <- is_container_exist parent ;;
  if parent_exists then
    exists_ <- is_container_exist user_container_name ;;
    if negb exists_ then
      parent <- topology_parent user_topology user_container_name ;;
      action_result <- container_create user_container_name parent ;;
      if success action_result
      then ret ((containers_created_counter + 1)%Z,
                containers_created ++ [user_container_name])
      else ret acc
    else ret acc
  else ret acc.

Fixpoint create_loop (user_topology : UserTopology) (names : list string)
    (acc : Z * list string) : M W (Z * list string) :=
  match names with
  | [] => ret acc
  | user_container_name :: names' =>
      acc' <- create_step user_topology acc user_container_name ;;
      create_loop user_topology names' acc'
  end.

(** The resolver inside the run: out of fuel is [Diverge]. *)
Definition run_list_container_from_top (fuel : nat) (container_list : UserTopology)
    (container_root_name : option string) : M W (list string) :=
  fun s =>
    match list_container_from_top fuel container_list container_root_name with
    | Some l => (Ret l, s)
    | None => (Diverge, s)
    end.

Definition manager_containers_create (fuel : nat) (user_topology : UserTopology)
    : M W CreationResult :=
  root_container_name <- container_get_root ;;
  user_containers_topology_ordered_list <-
    run_list_container_from_top fuel user_topology root_container_name ;;
  acc <- create_loop user_topology user_containers_topology_ordered_list (0%Z, []) ;;
  ret {| count_new_containers := fst acc; list_new_containers := snd acc |}.

End Module_cv_container_v3.


(** ** The [__main__] blocks *)

(** How a module run ends: [fail_json] and [exit_json] both leave the process. *)
Inductive failure : Type :=
| CvpracRequired         (* 'cvprac required for this module. ...' *)
| JsonschemaRequired     (* 'JSONSCHEMA is required. ...' *)
| ContainerInputInvalid  (* 'Container input data are not compliant with module.' *)
| StateAbsentUnsupported (* 'State==absent is not yet supported !' *)
| DeviceInputInvalid.    (* 'Error, your input is not valid against current schema: ...' *)

Inductive exit (R : Type) : Type :=
| FailJson (msg : failure)
| ExitJson (result : R).
Arguments FailJson {R} msg.

(** [result] of cv_container_v3: [changed] and [data], whose [creation_result]
    is set only when something was created. *)
Record ContainerModuleResult : Type := {
  changed : bool;
  data_taskIds_out : list string;
  data_tasks_out : list string;
  data_creation_result : option CreationResult
}.

(** [mode in ['merge', 'override']] *)
Definition mode_creates (mode : string) : bool :=
  String.eqb mode "merge" || String.eqb mode "override".

Section Main_cv_container_v3.

Context {W : Type}.
Variable cv_connection : CvpClient W.
Variable check_mode : bool.
(** [HAS_CVPRAC] and [schema.HAS_JSONSCHEMA] *)
Variables HAS_CVPRAC HAS_JSONSCHEMA : bool.
(** The verdict of [schema.validate_cv_inputs] (module_utils/schema.py) on
    [params['topology']] against [schema.SCHEMA_CV_CONTAINER]. *)
Variable validate_cv_inputs : UserTopology -> bool.

(** What the module runs before its [__main__] block: the function
    definitions. The annotation [cv_connection: CvpClient()] of
    [facts_get_topology] (and of three more functions) is evaluated when the
    [def] is, and without cvprac the name [CvpClient] was never bound. *)
Definition module_definitions : M W unit :=
  if HAS_CVPRAC then ret tt else raise (NameError "CvpClient").

(** A run of cv_container_v3 as a script: the definitions, then the
    [__main__] block from the library tests on; [tools_cv.cv_connect] hands
    over [cv_connection]. [ANSIBLE_MODULE.params] holds the keys of
    [argument_spec]: [topology], [cvp_facts], [configlet_filter] and [mode].
    The error message of the validation branch reads [params['configlets']],
    which is none of them. *)
Definition cv_container_v3_main (fuel : nat) (topology : UserTopology) (mode : string)
    : M W (exit ContainerModuleResult) :=
  _ <- module_definitions ;;
  if negb HAS_CVPRAC then ret (FailJson CvpracRequired)
  else if negb HAS_JSONSCHEMA then ret (FailJson JsonschemaRequired)
  else if negb (validate_cv_inputs topology) then
    _ <- raise (A := unit) (KeyError "configlets") ;;
    ret (FailJson ContainerInputInvalid)
  else
    let result :=
      {| changed := false; data_taskIds_out := []; data_tasks_out := [];
         data_creation_result := None |} in
    if mode_creates mode then
      creation_data <- manager_containers_create cv_connection check_mode fuel topology ;;
      if (count_new_containers creation_data >? 0)%Z
      then ret (ExitJson {| changed := true; data_taskIds_out := []; data_tasks_out := [];
                            data_creation_result := Some creation_data |})
      else ret (ExitJson result)
    else ret (ExitJson result).

End Main_cv_container_v3.

(** cv_device_v3: [check_import] returns when both libraries are there. *)
Definition check_import (HAS_CVPRAC HAS_JSONSCHEMA : bool) : option failure :=
  if negb HAS_CVPRAC then Some CvpracRequired
  else if negb HAS_JSONSCHEMA then Some JsonschemaRequired
  else None.

(** [result] of cv_device_v3: what [CvDeviceTools.manager] returned, and its
    [changed] entry. *)
Record DeviceModuleResult (D : Type) : Type := {
  dev_changed : bool;
  dev_data : D
}.

(** The [__main__] block of cv_device_v3. [is_valid] is the value of
    [DeviceInventory(data=params['devices']).is_valid] and [manager_data],
    [manager_changed] what [CvDeviceTools.manager] returns and its [changed]
    entry; both classes come from module_utils/device_tools.py. *)
Definition cv_device_v3_main {D : Type} (HAS_CVPRAC HAS_JSONSCHEMA : bool)
    (state : string) (is_valid : bool) (manager_data : D) (manager_changed : bool)
    : exit (DeviceModuleResult D) :=
  if String.eqb state "absent" then FailJson StateAbsentUnsupported
  else
    match check_import HAS_CVPRAC HAS_JSONSCHEMA with
    | Some msg => FailJson msg
    | None =>
        if is_valid then FailJson DeviceInputInvalid
        else ExitJson {| dev_changed := manager_changed; dev_data := manager_data |}
    end.

(** ** The rest of cv_container_v3, and generic_tools *)

Section Facts_cv_container_v3.

Context {W : Type}.
Variable cv_connection : CvpClient W.

(** [facts_get_topology]: [topology] starts as [dict()] and keeps that value
    when the request raises. The topology the client answers is seen through
    its name, as in [container_get_root]; [None] is the empty [dict()]. *)
Definition facts_get_topology (root_node : string) : M W (option string) :=
  try_except
    (topology <- api_filter_topology cv_connection root_node ;; ret (Some topology))
    (ret None).

End Facts_cv_container_v3.

Module generic_tools.

(** [k in d] *)
Definition contains {V} (k : string) (d : Py.dict V) : bool :=
  existsb (String.eqb k) (Py.keys d).

(** [d[k]], which raises [KeyError] on a missing key *)
Definition item {V} (k : string) (d : Py.dict V) : res V :=
  match Py.get k d with
  | Some v => Ret v
  | None => Raise (KeyError k)
  end.

(** [class CvElement]: an object is its private [__cv_data]. *)
Definition CvElement (V : Type) : Type := Py.dict V.

(** The property [name]: [None] of the result is Python's [None]. *)
Definition name {V} (self : CvElement V) : res (option V) :=
  if contains "name" self then
    match item "name" self with
    | Ret v => Ret (Some v)
    | Raise e => Raise e
    | Diverge => Diverge
    end
  else Ret None.

(** The property [key]: without the key the body ends, and returns [None]. *)
Definition key {V} (self : CvElement V) : res (option V) :=
  if contains "key" self then
    match item "key" self with
    | Ret v => Ret (Some v)
    | Raise e => Raise e
    | Diverge => Diverge
    end
  else Ret None.

(** The property [data] *)
Definition data {V} (self : CvElement V) : Py.dict V := self.

End generic_tools.

(** ** Two clients to run the code against *)

(** A CVP server that does what it is asked: it knows its root container and
    the containers created so far, by name, with their keys. *)
Record Cvp : Type := {
  root_name : string;
  inventory : Py.dict string
}.

Definition container_record (name key : string) : Py.dict string :=
  [("name", name); ("key", key)].

Definition cvp_get (name : string) (w : Cvp) : option (Py.dict string) :=
  option_map (container_record name) (Py.get name (inventory w)).

Definition cvp_add (name : string) (w : Cvp) : Cvp :=
  {| root_name := root_name w;
     inventory := inventory w ++ [(name, "container_" ++ name)%string] |}.

Definition cvp_client : CvpClient Cvp := {|
  filter_topology := fun _ w => (Reply (root_name w), w);
  get_container_by_name := fun name w => (Reply (cvp_get name w), w);
  add_container := fun name _ _ w =>
    (Reply {| data_status := "success"; data_taskIds := [] |}, cvp_add name w)
|}.

(** A server holding only its root container. *)
Definition fresh_cvp (root : string) : Cvp :=
  {| root_name := root; inventory := [(root, "root")] |}.

(** Transient failures: a client wrapped with a script, one entry per remote
    call; [true] makes that call raise without reaching the server. *)
Definition scripted {W A} (f : W -> reply A * W) (w : W * list bool)
    : reply A * (W * list bool) :=
  match snd w with
  | true :: script => (Fails, (fst w, script))
  | false :: script => let '(r, w') := f (fst w) in (r, (w', script))
  | [] => let '(r, w') := f (fst w) in (r, (w', []))
  end.

Definition faulty {W} (client : CvpClient W) : CvpClient (W * list bool) := {|
  filter_topology := fun node_id => scripted (filter_topology client node_id);
  get_container_by_name := fun name => scripted (get_container_by_name client name);
  add_container := fun name parent key => scripted (add_container client name parent key)
|}.

(** The state a run starts from: nothing called yet. *)
Definition start {W} (w : W) : run_state W := {| world := w; calls := [] |}.


(** ** Vocabulary of the statements *)

(** [l1] is [l2] with some elements left out, order kept. *)
Inductive subseq {A : Type} : list A -> list A -> Prop :=
| subseq_nil : subseq [] []
| subseq_take (x : A) (l1 l2 : list A) : subseq l1 l2 -> subseq (x :: l1) (x :: l2)
| subseq_skip (x : A) (l1 l2 : list A) : subseq l1 l2 -> subseq l1 (x :: l2).

(** The names [add_container] was called for, in call order. *)
Fixpoint adds (cs : list call) : list string :=
  match cs with
  | [] => []
  | CallAddContainer name _ _ :: cs' => name :: adds cs'
  | _ :: cs' => adds cs'
  end.

(** The state after a remote call [c] that left the server as it was. *)
Definition logged {W} (s : run_state W) (c : call) : run_state W :=
  {| world := world s; calls := calls s ++ [c] |}.

(** The server answers a lookup of [name] with a container. *)
Definition present {W} (client : CvpClient W) (w : W) (name : string) : Prop :=
  exists d, fst (get_container_by_name client name w) = Reply (Some d).

(** A server without failures or interference, on the states [ok] it can be
    in: the root name is [root] and the root container is there, lookups
    answer without changing anything and every container they return has a
    key, and [add_container] answers, adds the container and removes none. *)
Record well_behaved {W} (client : CvpClient W) (root : string) (ok : W -> Prop) : Prop := {
  wb_topology : forall node_id w, ok w -> filter_topology client node_id w = (Reply root, w);
  wb_root : forall w, ok w -> present client w root;
  wb_lookup : forall name w, ok w ->
    exists r, get_container_by_name client name w = (Reply r, w) /\
              forall d, r = Some d -> exists key, Py.get "key" d = Some key;
  wb_add : forall name parent key w, ok w ->
    exists resp w', add_container client name parent key w = (Reply resp, w') /\
                    ok w' /\ present client w' name /\
                    forall other, present client w other -> present client w' other
}.

(** Lists the resolver can build: every entry is a key of the topology and is
    appended when its parent is the root name or already in the list. *)
Inductive parents_first (d : UserTopology) (root : option string) : list string -> Prop :=
| pf_nil : parents_first d root []
| pf_snoc (l : list string) (name : string) (spec : ContainerSpec) :
    parents_first d root l ->
    In (name, spec) d ->
    eq_opt (parent_container spec) root = true \/ In (parent_container spec) l ->
    parents_first d root (l ++ [name]).

(** Containers whose chain of parents, through keys of the topology, reaches
    the root name. *)
Inductive resolvable (d : UserTopology) (root : option string) : string -> Prop :=
| under_root (name : string) (spec : ContainerSpec) :
    In (name, spec) d ->
    eq_opt (parent_container spec) root = true ->
    resolvable d root name
| under_resolvable (name : string) (spec : ContainerSpec) :
    In (name, spec) d ->
    resolvable d root (parent_container spec) ->
    resolvable d root name.

(** However [m] ends, the remote calls it made are appended to the log, and
    [add_container] was called for names of [names] only. *)
Definition issues {W A} (m : M W A) (names : list string) : Prop :=
  forall s r s', m s = (r, s') ->
  exists cs, calls s' = calls s ++ cs /\ incl (adds cs) names.

(** Some container of the topology has the root name as its parent. *)
Definition has_root_child (d : UserTopology) (root : option string) : bool :=
  existsb (fun item => eq_opt (parent_container (snd item)) root) d.

(** However [m] ends, the remote calls it made are appended to the log and
    each of them satisfies [P]. *)
Definition emits {W A} (m : M W A) (P : call -> Prop) : Prop :=
  forall s r s', m s = (r, s') ->
  exists cs, calls s' = calls s ++ cs /\ Forall P cs.

(** Every exception that leaves [m] satisfies [P]. *)
Definition throws {W A} (m : M W A) (P : exn -> Prop) : Prop :=
  forall s e s', m s = (Raise e, s') -> P e.

(** The remote calls of the manager's loop for a topology: lookups, and
    [add_container] for a declared container under its declared parent. *)
Definition declared (user_topology : UserTopology) (c : call) : Prop :=
  match c with
  | CallFilterTopology _ => False
  | CallGetContainerByName _ => True
  | CallAddContainer container_name parent_name _ =>
      exists spec, Py.get container_name user_topology = Some spec /\
                   parent_name = parent_container spec
  end.

(** A remote call that is not [add_container]. *)
Definition is_lookup (c : call) : Prop :=
  match c with
  | CallAddContainer _ _ _ => False
  | _ => True
  end.

(** The states of [cvp_client] whose root is [root]. *)
Definition cvp_ok (root : string) (w : Cvp) : Prop :=
  root_name w = root /\ exists key, Py.get root (inventory w) = Some key.

(** The topologies of the examples. *)
Definition scenario_A : UserTopology :=
  [("Fabric", child_of "Tenant"); ("Spines", child_of "Fabric")].

Definition scenario_C : UserTopology := [("Orphan", child_of "Ghost")].

(** One container under the root and one under a parent nobody declares. *)
Definition stray : UserTopology :=
  [("A", child_of "Tenant"); ("Orphan", child_of "Ghost")].

Definition single : UserTopology := [("A", child_of "Tenant")].

Definition chain4 : UserTopology :=
  [("D", child_of "C"); ("C", child_of "B"); ("B", child_of "A"); ("A", child_of "Tenant")].

(** * Properties *)

(** ** Running code: equations of the monad *)

Lemma bind_ret_l {W A B} (m : M W A) (k : A -> M W B) s a s' :
  m s = (Ret a, s') -> bind m k s = k a s'.
Proof. intros H. unfold bind. now rewrite H. Qed.

Lemma bind_inv {W A B} (m : M W A) (k : A -> M W B) s b s' :
  bind m k s = (Ret b, s') ->
  exists a s1, m s = (Ret a, s1) /\ k a s1 = (Ret b, s').
Proof.
  unfold bind. destruct (m s) as [[a | e |] s1]; intros H; try discriminate.
  now exists a, s1.
Qed.

(** ** The ordering resolver *)

Lemma any_eq_In x l : any_eq x l = true <-> In x l.
Proof.
  unfold any_eq. rewrite existsb_exists. split.
  - intros [y [Hy E]]. apply String.eqb_eq in E. now subst.
  - intros H. exists x. split; [assumption | apply String.eqb_refl].
Qed.

(** What a scan appends: [place] only ever extends the list. *)
Lemma place_extends root l item : exists suffix, place root l item = l ++ suffix.
Proof.
  destruct item as [c spec]. unfold place.
  destruct (eq_opt (parent_container spec) root);
    destruct (any_eq (parent_container spec) _).
  - exists [c; c]. now rewrite <- app_assoc.
  - now exists [c].
  - now exists [c].
  - exists []. now rewrite app_nil_r.
Qed.


Lemma place_parents_first d root l item :
  In item d -> parents_first d root l -> parents_first d root (place root l item).
Proof.
  destruct item as [c spec]. intros Hin Hl. unfold place.
  destruct (eq_opt (parent_container spec) root) eqn:Eroot.
  - assert (H1 : parents_first d root (l ++ [c]))
      by (apply pf_snoc with (spec := spec); auto).
    destruct (any_eq (parent_container spec) (l ++ [c])) eqn:Eany; [| exact H1].
    apply pf_snoc with (spec := spec); auto.
  - destruct (any_eq (parent_container spec) l) eqn:Eany; [| exact Hl].
    apply pf_snoc with (spec := spec); auto.
    right. now apply any_eq_In.
Qed.

Lemma fold_place_parents_first d root items l :
  incl items d -> parents_first d root l ->
  parents_first d root (fold_left (place root) items l).
Proof.
  revert l. induction items as [| item items IH]; intros l Hincl Hl; simpl.
  - exact Hl.
  - apply IH.
    + intros x Hx. apply Hincl. now right.
    + apply place_parents_first; [apply Hincl; now left | exact Hl].
Qed.

Lemma scan_parents_first d root l :
  parents_first d root l -> parents_first d root (scan d root l).
Proof. apply fold_place_parents_first. apply incl_refl. Qed.

Lemma resolve_loop_parents_first fuel d root l result :
  parents_first d root l ->
  resolve_loop fuel d root l = Some result ->
  parents_first d root result.
Proof.
  revert l. induction fuel as [| fuel IH]; intros l Hl; simpl; [discriminate |].
  destruct (Nat.ltb _ _).
  - apply IH. now apply scan_parents_first.
  - intros [= <-]. exact Hl.
Qed.

Lemma resolve_loop_length fuel d root l result :
  resolve_loop fuel d root l = Some result -> Py.len d + 1 <= List.length result.
Proof.
  revert l. induction fuel as [| fuel IH]; intros l; simpl; [discriminate |].
  destruct (Nat.ltb _ _) eqn:E.
  - apply IH.
  - intros [= <-]. apply Nat.ltb_ge in E. exact E.
Qed.

(** More fuel does not change an answer. *)
Lemma resolve_loop_more_fuel fuel extra d root l result :
  resolve_loop fuel d root l = Some result ->
  resolve_loop (fuel + extra) d root l = Some result.
Proof.
  revert l. induction fuel as [| fuel IH]; intros l; simpl; [discriminate |].
  destruct (Nat.ltb _ _); [apply IH | trivial].
Qed.

Lemma list_container_from_top_deterministic fuel1 fuel2 d root l1 l2 :
  list_container_from_top fuel1 d root = Some l1 ->
  list_container_from_top fuel2 d root = Some l2 ->
  l1 = l2.
Proof.
  unfold list_container_from_top. intros H1 H2.
  apply resolve_loop_more_fuel with (extra := fuel2) in H1.
  apply resolve_loop_more_fuel with (extra := fuel1) in H2.
  rewrite Nat.add_comm in H2. congruence.
Qed.

(** Every entry of a list the resolver builds is a key, and comes after an
    entry for its parent unless the parent is the root name. *)
Lemma parents_first_split d root l :
  parents_first d root l ->
  forall l1 name l2, l = l1 ++ name :: l2 ->
  exists spec, In (name, spec) d /\
    (eq_opt (parent_container spec) root = true \/ In (parent_container spec) l1).
Proof.
  induction 1 as [| l n spec Hl IH Hin Hpar]; intros l1 name l2 E.
  - now destruct l1.
  - destruct l2 as [| x l2'].
    + apply app_inj_tail in E as [-> ->]. now exists spec.
    + destruct (@exists_last _ (x :: l2')) as [l3 [a E3]]; [discriminate |].
      rewrite E3 in E.
      change (l ++ [n] = l1 ++ (name :: l3) ++ [a]) in E.
      rewrite app_assoc in E. apply app_inj_tail in E as [E _].
      now apply IH with (l2 := l3).
Qed.

Lemma parents_first_keys d root l :
  parents_first d root l -> incl l (Py.keys d).
Proof.
  induction 1 as [| l n spec Hl IH Hin Hpar]; intros x Hx.
  - destruct Hx.
  - apply in_app_or in Hx as [Hx | [<- | []]].
    + now apply IH.
    + unfold Py.keys. change n with (fst (n, spec)). now apply in_map.
Qed.

Lemma list_container_from_top_keys fuel d root l :
  list_container_from_top fuel d root = Some l -> incl l (Py.keys d).
Proof.
  intros H. apply parents_first_keys with (root := root).
  eapply resolve_loop_parents_first; [apply pf_nil | exact H].
Qed.

(** The list the resolver returns is longer than the topology, so it always
    repeats a name. *)
Lemma list_container_from_top_repeats fuel d root l :
  list_container_from_top fuel d root = Some l -> ~ NoDup l.
Proof.
  intros H Hnd.
  pose proof (resolve_loop_length _ _ _ _ H) as Hlen.
  pose proof (list_container_from_top_keys _ _ _ H) as Hk.
  apply (NoDup_incl_length Hnd) in Hk.
  unfold Py.keys, Py.len in *. rewrite length_map in Hk. lia.
Qed.

(** A scan that places nothing from the empty list leaves the loop running
    for ever. *)
Lemma resolve_loop_stuck d root :
  scan d root [] = [] -> forall fuel, resolve_loop fuel d root [] = None.
Proof.
  intros Hscan fuel. induction fuel as [| fuel IH]; simpl; [reflexivity |].
  replace (Nat.ltb 0 (Py.len d + 1)) with true
    by (symmetry; apply Nat.ltb_lt; lia).
  now rewrite Hscan.
Qed.

Lemma place_length root l item :
  List.length l <= List.length (place root l item).
Proof.
  destruct (place_extends root l item) as [suffix ->]. rewrite length_app. lia.
Qed.

Lemma fold_place_length root items l :
  List.length l <= List.length (fold_left (place root) items l).
Proof.
  revert l. induction items as [| item items IH]; intros l; simpl; [lia |].
  etransitivity; [apply place_length | apply IH].
Qed.

(** A container directly under the root makes every scan add an entry ... *)
Lemma scan_progress d root l :
  (exists item, In item d /\ eq_opt (parent_container (snd item)) root = true) ->
  List.length l + 1 <= List.length (scan d root l).
Proof.
  unfold scan. intros [item [Hin Hroot]]. revert l.
  induction d as [| item' d IH]; intros l; [destruct Hin |].
  simpl. destruct Hin as [-> | Hin].
  - etransitivity; [| apply fold_place_length].
    destruct item as [c spec]. simpl in Hroot. unfold place. rewrite Hroot.
    destruct (any_eq _ _); repeat rewrite length_app; simpl; lia.
  - etransitivity; [| apply IH; assumption].
    pose proof (place_length root l item'). lia.
Qed.

(** ... so the loop ends within [len(container_list) + 2] tests of its
    condition. *)
Lemma resolve_loop_returns d root :
  (exists item, In item d /\ eq_opt (parent_container (snd item)) root = true) ->
  forall missing l, Py.len d + 1 <= List.length l + missing ->
  exists result, resolve_loop (S missing) d root l = Some result.
Proof.
  intros Hroot. induction missing as [| missing IH]; intros l Hlen.
  - simpl. replace (Nat.ltb _ _) with false
      by (symmetry; apply Nat.ltb_ge; lia). now exists l.
  - cbn [resolve_loop]. destruct (Nat.ltb _ _); [| now exists l].
    apply IH. pose proof (@scan_progress d root l Hroot). lia.
Qed.

Lemma list_container_from_top_returns d root :
  (exists item, In item d /\ eq_opt (parent_container (snd item)) root = true) ->
  exists result, list_container_from_top (Py.len d + 2) d root = Some result.
Proof.
  intros Hroot. unfold list_container_from_top.
  replace (Py.len d + 2) with (S (Py.len d + 1)) by lia.
  apply resolve_loop_returns; [assumption | simpl; lia].
Qed.

(** Scenario C, [{Orphan: {parent_container: Ghost}}] with root name
    [Tenant]: [list_container_from_top] returns for no amount of fuel, and
    [manager_containers_create] hangs in it after one remote call, the
    topology request of [container_get_root]; nothing is raised. *)
Lemma scenario_C_never_returns (check_mode : bool) (fuel : nat) :
  list_container_from_top fuel scenario_C (Some "Tenant") = None /\
  manager_containers_create cvp_client check_mode fuel scenario_C
      (start (fresh_cvp "Tenant"))
  = (Diverge, {| world := fresh_cvp "Tenant"; calls := [CallFilterTopology "root"] |}).
Proof.
  assert (H : list_container_from_top fuel scenario_C (Some "Tenant") = None)
    by (apply resolve_loop_stuck; reflexivity).
  split; [exact H |].
  unfold manager_containers_create, bind, run_list_container_from_top.
  cbn -[list_container_from_top]. now rewrite H.
Qed.

(** C2 (the code repeats names): on scenario A,
    [{Fabric: {parent_container: Tenant}, Spines: {parent_container: Fabric}}]
    with root name [Tenant], the loop needs three tests of its condition and
    returns [[Fabric, Spines, Fabric, Spines]], not [[Fabric, Spines]]. *)
Theorem scenario_A_order (fuel : nat) :
  list_container_from_top (3 + fuel) scenario_A (Some "Tenant")
  = Some ["Fabric"; "Spines"; "Fabric"; "Spines"].
Proof.
  unfold list_container_from_top. now apply resolve_loop_more_fuel.
Qed.

(** A chain of four given leaf first: the loop stops on the length of its
    list before [D] is placed, so [D] is never created. *)
Lemma chain4_order (fuel : nat) :
  list_container_from_top (4 + fuel) chain4 (Some "Tenant")
  = Some ["A"; "B"; "A"; "C"; "B"; "A"].
Proof.
  unfold list_container_from_top. now apply resolve_loop_more_fuel.
Qed.

(** ** The manager, against any client *)

Lemma subseq_In {A} (l1 l2 : list A) x : subseq l1 l2 -> In x l1 -> In x l2.
Proof.
  induction 1 as [| y l1 l2 _ IH | y l1 l2 _ IH]; simpl; intuition.
Qed.

Lemma adds_app cs1 cs2 : adds (cs1 ++ cs2) = adds cs1 ++ adds cs2.
Proof.
  induction cs1 as [| c cs1 IH]; simpl; [reflexivity |].
  destruct c; simpl; now rewrite IH.
Qed.

Section Manager_facts.

Context {W : Type}.
Variable client : CvpClient W.
Variable check_mode : bool.

Lemma remote_calls {A} (c : call) (f : W -> reply A * W) s r s' :
  remote c f s = (r, s') -> calls s' = calls s ++ [c].
Proof.
  unfold remote. destruct (f (world s)) as [[a |] w]; intros [= <- <-]; reflexivity.
Qed.

(** [is_container_exist] answers whatever the client does: a failed lookup
    is the answer [False]. *)
Lemma is_container_exist_total name s :
  exists b s', is_container_exist client name s = (Ret b, s') /\
               calls s' = calls s ++ [CallGetContainerByName name].
Proof.
  unfold is_container_exist, try_except, try_except_else, bind,
    api_get_container_by_name, remote, ret.
  destruct (get_container_by_name client name (world s)) as [[[d |] |] w];
    simpl; eauto.
Qed.

Lemma is_container_exist_calls name s r s' :
  is_container_exist client name s = (r, s') ->
  calls s' = calls s ++ [CallGetContainerByName name].
Proof.
  destruct (is_container_exist_total name s) as (b & s1 & E & Hc).
  rewrite E. now intros [= <- <-].
Qed.

(** So does [container_get_root]: a failed request is the answer [None]. *)
Lemma container_get_root_total s :
  exists root s', container_get_root client s = (Ret root, s') /\
                  calls s' = calls s ++ [CallFilterTopology "root"].
Proof.
  unfold container_get_root, try_except_else, api_filter_topology, remote, ret.
  destruct (filter_topology client "root" (world s)) as [[name |] w];
    simpl; eauto.
Qed.

Lemma container_get_id_calls name s r s' :
  container_get_id client name s = (r, s') ->
  calls s' = calls s ++ [CallGetContainerByName name].
Proof.
  unfold container_get_id, try_except, try_except_else, bind,
    api_get_container_by_name, remote, ret, raise.
  destruct (get_container_by_name client name (world s)) as [[[d |] |] w]; simpl.
  - destruct (Py.get "key" d); now intros [= <- <-].
  - now intros [= <- <-].
  - now intros [= <- <-].
Qed.

(** One turn of the manager's loop either leaves the accumulators alone or
    counts the container it was run for. *)
Lemma create_step_shape topo acc name s acc' s' :
  create_step client check_mode topo acc name s = (Ret acc', s') ->
  acc' = acc \/ acc' = ((fst acc + 1)%Z, snd acc ++ [name]).
Proof.
  unfold create_step. destruct acc as [counter created]. intros H.
  apply bind_inv in H as (parent & s1 & _ & H).
  apply bind_inv in H as ([|] & s2 & _ & H).
  - apply bind_inv in H as ([|] & s3 & _ & H); simpl in H.
    + injection H as <- _. now left.
    + apply bind_inv in H as (parent' & s4 & _ & H).
      apply bind_inv in H as (action_result & s5 & _ & H).
      destruct (success action_result); injection H as <- _; auto.
  - injection H as <- _. now left.
Qed.

Lemma create_loop_shape topo names acc s acc' s' :
  create_loop client check_mode topo names acc s = (Ret acc', s') ->
  exists picked, subseq picked names /\
    snd acc' = snd acc ++ picked /\
    fst acc' = (fst acc + Z.of_nat (List.length picked))%Z.
Proof.
  revert acc s. induction names as [| name names IH]; intros acc s H; simpl in H.
  - injection H as <- _. exists []. rewrite app_nil_r. simpl.
    repeat split; [constructor | lia].
  - apply bind_inv in H as (acc1 & s1 & Hstep & H).
    apply IH in H as (picked & Hsub & Hl & Hc).
    apply create_step_shape in Hstep as [-> | ->].
    + exists picked. repeat split; [now constructor | assumption | assumption].
    + exists (name :: picked). simpl fst in *. simpl snd in *.
      repeat split; [now constructor | now rewrite Hl, <- app_assoc |].
      rewrite Hc. simpl List.length. lia.
Qed.

(** C10: whatever the client and the mode, a result of
    [manager_containers_create] has [count_new_containers] equal to the
    length of [list_new_containers], hence not negative, and
    [list_new_containers] is made of keys of the user's topology, in the
    order in which the loop went through them: it is the list the resolver
    returned with some entries left out. *)
Theorem manager_result_invariant fuel (user_topology : UserTopology) s result s' :
  manager_containers_create client check_mode fuel user_topology s = (Ret result, s') ->
  count_new_containers result = Z.of_nat (List.length (list_new_containers result)) /\
  (0 <= count_new_containers result)%Z /\
  (forall name, In name (list_new_containers result) -> In name (Py.keys user_topology)) /\
  exists root order,
    list_container_from_top fuel user_topology root = Some order /\
    subseq (list_new_containers result) order.
Proof.
  unfold manager_containers_create. intros H.
  apply bind_inv in H as (root & s1 & _ & H).
  apply bind_inv in H as (order & s2 & Horder & H).
  apply bind_inv in H as (acc & s3 & Hloop & H).
  injection H as <- _. simpl.
  unfold run_list_container_from_top in Horder.
  destruct (list_container_from_top fuel user_topology root) as [l |] eqn:El;
    [| discriminate].
  injection Horder as -> _.
  apply create_loop_shape in Hloop as (picked & Hsub & Hl & Hc).
  simpl in Hl, Hc. rewrite Hl, Hc.
  repeat split; try lia.
  - intros name Hin. apply (list_container_from_top_keys _ _ _ El).
    now apply subseq_In with (l1 := picked).
  - now exists root, order.
Qed.

End Manager_facts.

Section Loop_turns.

Context {W : Type}.
Variable client : CvpClient W.

Lemma bind_ret {A B} (a : A) (k : A -> M W B) s : bind (ret a) k s = k a s.
Proof. reflexivity. Qed.

Lemma adds_one_lookup (cs : list call) name :
  adds (cs ++ [CallGetContainerByName name]) = adds cs.
Proof. rewrite adds_app. simpl. apply app_nil_r. Qed.

(** In check mode [container_create] looks containers up and does nothing
    else, however it ends. *)
Lemma container_create_check_mode_adds name parent s r s' :
  container_create client true name parent s = (r, s') ->
  adds (calls s') = adds (calls s).
Proof.
  unfold container_create, bind.
  destruct (is_container_exist client parent s) as [[[|] | e |] s1] eqn:E1;
    pose proof (is_container_exist_calls _ _ _ E1) as C1.
  - destruct (container_get_id client parent s1) as [[key | e |] s2] eqn:E2;
      pose proof (container_get_id_calls _ _ _ E2) as C2;
      simpl; intros [= <- <-]; now rewrite C2, C1, !adds_one_lookup.
  - simpl. intros [= <- <-]. now rewrite C1, adds_one_lookup.
  - intros [= <- <-]. now rewrite C1, adds_one_lookup.
  - intros [= <- <-]. now rewrite C1, adds_one_lookup.
Qed.

(** Outside check mode, once the parent is found with its key,
    [container_create] calls [add_container] and answers [success: True]
    whatever comes back: a response, with any status, or an exception. *)
Lemma container_create_success_whatever name parent s s1 s2 key :
  is_container_exist client parent s = (Ret true, s1) ->
  container_get_id client parent s1 = (Ret key, s2) ->
  exists ids s3,
    container_create client false name parent s
    = (Ret {| success := true; taskIDs := ids; container := name |}, s3) /\
    calls s3 = calls s2 ++ [CallAddContainer name parent key].
Proof.
  intros H1 H2. unfold container_create.
  rewrite (bind_ret_l _ _ _ H1). rewrite (bind_ret_l _ _ _ H2).
  unfold bind, try_except_else, api_add_container, remote, ret.
  destruct (add_container client name parent key (world s2)) as [[resp |] w]; simpl.
  - destruct (String.eqb (data_status resp) "success"); eauto.
  - eauto.
Qed.

Variable check_mode : bool.

Lemma create_step_parent_missing (user_topology : UserTopology) acc name spec s s1 :
  Py.get name user_topology = Some spec ->
  is_container_exist client (parent_container spec) s = (Ret false, s1) ->
  create_step client check_mode user_topology acc name s = (Ret acc, s1).
Proof.
  intros Hget Hparent.
  unfold create_step, topology_parent. destruct acc as [counter created].
  rewrite Hget, bind_ret. now rewrite (bind_ret_l _ _ _ Hparent).
Qed.


Lemma create_step_found (user_topology : UserTopology) acc name spec s s1 s2 :
  Py.get name user_topology = Some spec ->
  is_container_exist client (parent_container spec) s = (Ret true, s1) ->
  is_container_exist client name s1 = (Ret true, s2) ->
  create_step client check_mode user_topology acc name s = (Ret acc, s2).
Proof.
  intros Hget Hparent Hself.
  unfold create_step, topology_parent. destruct acc as [counter created].
  rewrite Hget, bind_ret. rewrite (bind_ret_l _ _ _ Hparent).
  now rewrite (bind_ret_l _ _ _ Hself).
Qed.

(** The turn of the loop for a container, in terms of what
    [is_container_exist] answers: (1) when the parent is found and the
    container is found too, the turn is those two lookups; and (2) a turn
    that does anything else is one where the parent was found and the
    container was not. *)
Lemma turn_on_found_container (user_topology : UserTopology)
    acc name spec names s :
  Py.get name user_topology = Some spec ->
  (forall s1 s2,
     is_container_exist client (parent_container spec) s = (Ret true, s1) ->
     is_container_exist client name s1 = (Ret true, s2) ->
     create_step client check_mode user_topology acc name s = (Ret acc, s2) /\
     calls s2 = calls s ++ [CallGetContainerByName (parent_container spec);
                            CallGetContainerByName name] /\
     create_loop client check_mode user_topology (name :: names) acc s
     = create_loop client check_mode user_topology names acc s2)
  /\
  (forall r s',
     create_step client check_mode user_topology acc name s = (r, s') ->
     r <> Ret acc \/ adds (calls s') <> adds (calls s) ->
     exists s1 s2,
       is_container_exist client (parent_container spec) s = (Ret true, s1) /\
       is_container_exist client name s1 = (Ret false, s2)).
Proof.
  intros Hget. split.
  - intros s1 s2 Hparent Hself.
    pose proof (@create_step_found user_topology acc name spec s s1 s2 Hget Hparent Hself) as Hstep.
    repeat split.
    + exact Hstep.
    + rewrite (is_container_exist_calls _ _ _ Hself),
        (is_container_exist_calls _ _ _ Hparent), <- app_assoc. reflexivity.
    + cbn [create_loop]. now rewrite (bind_ret_l _ _ _ Hstep).
  - intros r s' Hstep Hdiff.
    destruct (is_container_exist_total client (parent_container spec) s)
      as ([|] & s1 & Hparent & C1).
    + destruct (is_container_exist_total client name s1) as ([|] & s2 & Hself & C2).
      * rewrite (@create_step_found user_topology acc name spec s s1 s2 Hget Hparent Hself) in Hstep.
        injection Hstep as <- <-. exfalso.
        destruct Hdiff as [Hd | Hd]; apply Hd; [reflexivity |].
        now rewrite C2, C1, !adds_one_lookup.
      * now exists s1, s2.
    + rewrite (@create_step_parent_missing user_topology acc name spec s s1 Hget Hparent)
        in Hstep. injection Hstep as <- <-. exfalso.
      destruct Hdiff as [Hd | Hd]; apply Hd; [reflexivity |].
      now rewrite C1, adds_one_lookup.
Qed.

(** What [is_container_exist] answers, from what the client answers. *)
Lemma is_container_exist_reply name s :
  is_container_exist client name s
  = (Ret match fst (get_container_by_name client name (world s)) with
         | Reply (Some _) => true
         | _ => false
         end,
     {| world := snd (get_container_by_name client name (world s));
        calls := calls s ++ [CallGetContainerByName name] |}).
Proof.
  unfold is_container_exist, try_except, try_except_else, bind,
    api_get_container_by_name, remote, ret.
  now destruct (get_container_by_name client name (world s)) as [[[d |] |] w].
Qed.


End Loop_turns.

Section Dry_run.

Context {W : Type}.
Variable client : CvpClient W.

(** The turn of the loop for a missing container under a parent that is
    there counts it as soon as [container_create] answers [success: True]. *)
Lemma create_step_counts check_mode (user_topology : UserTopology)
    acc name spec s s1 s2 action_result s3 :
  Py.get name user_topology = Some spec ->
  is_container_exist client (parent_container spec) s = (Ret true, s1) ->
  is_container_exist client name s1 = (Ret false, s2) ->
  container_create client check_mode name (parent_container spec) s2
  = (Ret action_result, s3) ->
  success action_result = true ->
  create_step client check_mode user_topology acc name s
  = (Ret ((fst acc + 1)%Z, snd acc ++ [name]), s3).
Proof.
  intros Hget Hparent Hself Hcreate Hsuccess.
  unfold create_step, topology_parent. destruct acc as [counter created].
  rewrite Hget, bind_ret. rewrite (bind_ret_l _ _ _ Hparent).
  rewrite (bind_ret_l _ _ _ Hself). cbn [negb]. rewrite bind_ret.
  rewrite (bind_ret_l _ _ _ Hcreate). now rewrite Hsuccess.
Qed.

(** What holds of check mode for one turn of the loop: [container_create]
    never calls [add_container], whatever its arguments and however it ends.
    For a missing container whose parent is found, with its key, it answers
    [success: True] with [taskIDs] left at ['UNSET'], and the manager counts
    the container and appends its name: the same accumulators as outside
    check mode, where [add_container] is called. *)
Theorem check_mode_simulates_create (user_topology : UserTopology)
    acc name spec s s1 s2 s3 s4 key :
  Py.get name user_topology = Some spec ->
  is_container_exist client (parent_container spec) s = (Ret true, s1) ->
  is_container_exist client name s1 = (Ret false, s2) ->
  is_container_exist client (parent_container spec) s2 = (Ret true, s3) ->
  container_get_id client (parent_container spec) s3 = (Ret key, s4) ->
  (forall container parent s0,
     adds (calls (snd (container_create client true container parent s0)))
     = adds (calls s0)) /\
  container_create client true name (parent_container spec) s2
  = (Ret {| success := true; taskIDs := UNSET; container := name |}, s4) /\
  adds (calls s4) = adds (calls s) /\
  create_step client true user_topology acc name s
  = (Ret ((fst acc + 1)%Z, snd acc ++ [name]), s4) /\
  exists s5,
    create_step client false user_topology acc name s
    = (Ret ((fst acc + 1)%Z, snd acc ++ [name]), s5) /\
    adds (calls s5) = adds (calls s) ++ [name].
Proof.
  intros Hget Hparent Hself Hparent' Hkey.
  assert (Hcreate :
    container_create client true name (parent_container spec) s2
    = (Ret {| success := true; taskIDs := UNSET; container := name |}, s4)).
  { unfold container_create. rewrite (bind_ret_l _ _ _ Hparent').
    now rewrite (bind_ret_l _ _ _ Hkey). }
  assert (Hcalls : adds (calls s4) = adds (calls s)).
  { rewrite (container_get_id_calls _ _ _ Hkey),
      (is_container_exist_calls _ _ _ Hparent'),
      (is_container_exist_calls _ _ _ Hself),
      (is_container_exist_calls _ _ _ Hparent).
    now rewrite !adds_one_lookup. }
  repeat split.
  - intros c p s0.
    destruct (container_create client true c p s0) as [r s'] eqn:E.
    simpl. eapply container_create_check_mode_adds. exact E.
  - exact Hcreate.
  - exact Hcalls.
  - now apply create_step_counts with (spec := spec) (s1 := s1) (s2 := s2)
      (action_result := {| success := true; taskIDs := UNSET; container := name |}).
  - destruct (@container_create_success_whatever W client name _ _ _ _ _ Hparent' Hkey)
      as (ids & s5 & Hreal & Hc).
    exists s5. split.
    + now apply create_step_counts with (spec := spec) (s1 := s1) (s2 := s2)
        (action_result := {| success := true; taskIDs := ids; container := name |}).
    + rewrite Hc, adds_app, Hcalls. reflexivity.
Qed.

End Dry_run.

(** ** Two runs in a row, against a server that does what it is asked *)

Lemma wf_get (d : UserTopology) name spec :
  Py.wf d -> In (name, spec) d -> Py.get name d = Some spec.
Proof.
  unfold Py.wf, Py.keys. induction d as [| [k v] d IH]; intros Hwf Hin; [destruct Hin |].
  simpl in *. inversion Hwf as [| ? ? Hnotin Hwf']; subst.
  destruct Hin as [[= -> ->] | Hin].
  - now rewrite String.eqb_refl.
  - destruct (String.eqb_spec name k) as [-> | _].
    + exfalso. apply Hnotin. change k with (fst (k, spec)). now apply in_map.
    + now apply IH.
Qed.

Lemma eq_opt_Some x root : eq_opt x (Some root) = true -> x = root.
Proof. simpl. apply String.eqb_eq. Qed.

Section Well_behaved_server.

Context {W : Type}.
Variable client : CvpClient W.
Variable root : string.
Variable ok : W -> Prop.
Hypothesis WB : well_behaved client root ok.

Lemma wb_is_container_exist name s :
  ok (world s) ->
  exists b, is_container_exist client name s
            = (Ret b, logged s (CallGetContainerByName name)) /\
            (b = true <-> present client (world s) name).
Proof.
  intros Hok. destruct (wb_lookup WB name _ Hok) as (r & E & _).
  unfold is_container_exist, try_except, try_except_else, bind,
    api_get_container_by_name, remote, ret, present, logged.
  rewrite E. destruct r as [d |]; simpl.
  - exists true. split; [reflexivity |]. split; [now exists d | trivial].
  - exists false. split; [reflexivity |]. split; [discriminate |].
    now intros [d [=]].
Qed.

Lemma wb_found name s :
  ok (world s) -> present client (world s) name ->
  is_container_exist client name s = (Ret true, logged s (CallGetContainerByName name)).
Proof.
  intros Hok Hp. destruct (@wb_is_container_exist name s Hok) as ([|] & E & Hb).
  - exact E.
  - apply Hb in Hp. discriminate.
Qed.

Lemma wb_container_get_id name s :
  ok (world s) -> present client (world s) name ->
  exists key, container_get_id client name s
              = (Ret (Some key), logged s (CallGetContainerByName name)).
Proof.
  intros Hok [d Hd]. destruct (wb_lookup WB name _ Hok) as (r & E & Hkey).
  rewrite E in Hd. simpl in Hd. injection Hd as ->.
  destruct (Hkey d eq_refl) as [key Ek]. exists key.
  unfold container_get_id, try_except, try_except_else, bind,
    api_get_container_by_name, remote, ret, logged.
  rewrite E. simpl. now rewrite Ek.
Qed.

Lemma wb_container_get_root s :
  ok (world s) ->
  container_get_root client s = (Ret (Some root), logged s (CallFilterTopology "root")).
Proof.
  intros Hok. unfold container_get_root, try_except_else, api_filter_topology, remote.
  now rewrite (wb_topology WB "root" _ Hok).
Qed.

(** Outside check mode, a turn of the loop for a container whose parent is
    there leaves the container there, and removes nothing. *)
Lemma wb_create_step (user_topology : UserTopology) acc name spec s :
  Py.get name user_topology = Some spec ->
  ok (world s) ->
  present client (world s) (parent_container spec) ->
  exists acc' s',
    create_step client false user_topology acc name s = (Ret acc', s') /\
    ok (world s') /\ present client (world s') name /\
    forall other, present client (world s) other -> present client (world s') other.
Proof.
  intros Hget Hok Hparent.
  pose proof (@wb_found _ s Hok Hparent) as E1.
  set (s1 := logged s (CallGetContainerByName (parent_container spec))) in *.
  assert (Hok1 : ok (world s1)) by exact Hok.
  destruct (@wb_is_container_exist name s1 Hok1) as ([|] & E2 & Hb).
  - exists acc, (logged s1 (CallGetContainerByName name)).
    split; [| split; [exact Hok | split; [now apply Hb | trivial]]].
    now apply create_step_found with (spec := spec) (s1 := s1).
  - set (s2 := logged s1 (CallGetContainerByName name)) in *.
    assert (Hok2 : ok (world s2)) by exact Hok.
    assert (Hparent2 : present client (world s2) (parent_container spec)) by exact Hparent.
    pose proof (@wb_found _ s2 Hok2 Hparent2) as E3.
    set (s3 := logged s2 (CallGetContainerByName (parent_container spec))) in *.
    assert (Hok3 : ok (world s3)) by exact Hok.
    assert (Hparent3 : present client (world s3) (parent_container spec)) by exact Hparent.
    destruct (@wb_container_get_id _ s3 Hok3 Hparent3) as [key E4].
    set (s4 := logged s3 (CallGetContainerByName (parent_container spec))) in *.
    destruct (wb_add WB name (parent_container spec) (Some key) _ Hok)
      as (resp & w' & Eadd & Hok' & Hname & Hmono).
    exists ((fst acc + 1)%Z, snd acc ++ [name]).
    exists {| world := w';
              calls := calls s4
                       ++ [CallAddContainer name (parent_container spec) (Some key)] |}.
    split; [| split; [exact Hok' | split; [exact Hname | exact Hmono]]].
    apply create_step_counts with (spec := spec) (s1 := s1) (s2 := s2)
      (action_result :=
         {| success := true;
            taskIDs := if String.eqb (data_status resp) "success"
                       then TaskIds (data_taskIds resp) else UNSET;
            container := name |}); trivial.
    unfold container_create.
    rewrite (bind_ret_l _ _ _ E3). rewrite (bind_ret_l _ _ _ E4).
    unfold bind, try_except_else, api_add_container, remote, ret.
    change (world s4) with (world s). rewrite Eadd.
    now destruct (String.eqb (data_status resp) "success").
Qed.

(** The loop of a first run: every name it goes through is there afterwards,
    given that each comes after its parent or hangs under the root. *)
Lemma wb_create_loop (user_topology : UserTopology) names :
  forall before acc s,
  ok (world s) ->
  (forall name, In name before -> present client (world s) name) ->
  (forall l1 name l2, names = l1 ++ name :: l2 ->
     exists spec, Py.get name user_topology = Some spec /\
       (parent_container spec = root \/ In (parent_container spec) (before ++ l1))) ->
  exists acc' s',
    create_loop client false user_topology names acc s = (Ret acc', s') /\
    ok (world s') /\
    forall name, In name (before ++ names) -> present client (world s') name.
Proof.
  induction names as [| name names IH]; intros before acc s Hok Hbefore Hnames.
  - exists acc, s. rewrite app_nil_r. now repeat split.
  - destruct (Hnames [] name names eq_refl) as (spec & Hget & Hpar).
    rewrite app_nil_r in Hpar.
    assert (Hparent : present client (world s) (parent_container spec)).
    { destruct Hpar as [-> | Hin]; [exact (wb_root WB _ Hok) | now apply Hbefore]. }
    destruct (@wb_create_step user_topology acc name spec s Hget Hok Hparent)
      as (acc1 & s1 & Hstep & Hok1 & Hname & Hmono).
    destruct (IH (before ++ [name]) acc1 s1 Hok1) as (acc' & s' & Hloop & Hok' & Hall).
    + intros m Hm. apply in_app_or in Hm as [Hm | [<- | []]]; auto.
    + intros l1 m l2 E.
      destruct (Hnames (name :: l1) m l2) as (spec' & Hget' & Hpar');
        [now rewrite E |].
      exists spec'. split; [exact Hget' |].
      now rewrite <- app_assoc.
    + exists acc', s'. split; [| split; [exact Hok' |]].
      * cbn [create_loop]. now rewrite (bind_ret_l _ _ _ Hstep).
      * intros m Hm. apply Hall. now rewrite <- app_assoc.
Qed.

(** The loop of a run that finds every parent and every container: lookups
    only, and the accumulators come back as they were. *)
Lemma wb_create_loop_nothing check_mode (user_topology : UserTopology) names :
  forall acc s,
  ok (world s) ->
  (forall name, In name names ->
     exists spec, Py.get name user_topology = Some spec /\
       present client (world s) (parent_container spec) /\
       present client (world s) name) ->
  exists s',
    create_loop client check_mode user_topology names acc s = (Ret acc, s') /\
    world s' = world s /\ adds (calls s') = adds (calls s).
Proof.
  induction names as [| name names IH]; intros acc s Hok Hall.
  - now exists s.
  - destruct (Hall name (or_introl eq_refl)) as (spec & Hget & Hparent & Hname).
    pose proof (@wb_found _ s Hok Hparent) as E1.
    set (s1 := logged s (CallGetContainerByName (parent_container spec))) in *.
    assert (Hok1 : ok (world s1)) by exact Hok.
    assert (Hname1 : present client (world s1) name) by exact Hname.
    pose proof (@wb_found _ s1 Hok1 Hname1) as E2.
    set (s2 := logged s1 (CallGetContainerByName name)) in *.
    destruct (IH acc s2) as (s' & Hloop & Hw & Hc).
    + exact Hok.
    + intros m Hm. apply Hall. now right.
    + exists s'. split; [| split].
      * cbn [create_loop].
        rewrite (bind_ret_l _ _ _
                   (@create_step_found W client check_mode user_topology acc name spec
                      s s1 s2 Hget E1 E2)).
        exact Hloop.
      * exact Hw.
      * rewrite Hc. unfold s2, s1, logged. simpl. now rewrite !adds_one_lookup.
Qed.

End Well_behaved_server.

(** A run against a server on which every container of the resolver's list
    is there: lookups only, and the result is empty. *)
Lemma run_on_complete_server {W} (client : CvpClient W) (root : string) (ok : W -> Prop)
    check_mode fuel (user_topology : UserTopology) order (w : W) :
  well_behaved client root ok ->
  Py.wf user_topology ->
  ok w ->
  list_container_from_top fuel user_topology (Some root) = Some order ->
  (forall name, In name order -> present client w name) ->
  exists s',
    manager_containers_create client check_mode fuel user_topology (start w)
    = (Ret {| count_new_containers := 0; list_new_containers := [] |}, s') /\
    world s' = w /\ adds (calls s') = [].
Proof.
  intros WB Hwf Hok Horder Hall.
  assert (Hpf : parents_first user_topology (Some root) order)
    by (eapply resolve_loop_parents_first; [apply pf_nil | exact Horder]).
  set (s0 := logged (start w) (CallFilterTopology "root")).
  destruct (@wb_create_loop_nothing W client root ok WB check_mode user_topology order
              (0%Z, []) s0 Hok) as (s' & Hloop & Hw & Hc).
  - intros name Hin. apply in_split in Hin as (l1 & l2 & E).
    destruct (parents_first_split Hpf l1 name l2 E) as (spec & Hspec & Hpar).
    exists spec. split; [now apply wf_get |]. split.
    + destruct Hpar as [Hr | Hin].
      * apply eq_opt_Some in Hr. rewrite Hr. exact (wb_root WB _ Hok).
      * apply Hall. rewrite E. apply in_or_app. now left.
    + apply Hall. rewrite E. apply in_or_app. right. now left.
  - exists s'. split; [| split; [exact Hw | exact Hc]].
    unfold manager_containers_create.
    rewrite (bind_ret_l _ _ _ (@wb_container_get_root W client root ok WB (start w) Hok)).
    fold s0. unfold bind at 1, run_list_container_from_top. rewrite Horder.
    now rewrite (bind_ret_l _ _ _ Hloop).
Qed.


(** ** The two clients *)

Lemma get_app_found {V} (d d' : Py.dict V) k v :
  Py.get k d = Some v -> Py.get k (d ++ d') = Some v.
Proof.
  induction d as [| [k' v'] d IH]; simpl; [discriminate |].
  destruct (String.eqb k k'); auto.
Qed.

Lemma get_app_last {V} (d : Py.dict V) k v :
  exists v', Py.get k (d ++ [(k, v)]) = Some v'.
Proof.
  induction d as [| [k' v'] d IH]; simpl.
  - rewrite String.eqb_refl. now exists v.
  - destruct (String.eqb k k'); [now exists v' | exact IH].
Qed.

Lemma cvp_present name (w : Cvp) :
  present cvp_client w name <-> exists key, Py.get name (inventory w) = Some key.
Proof.
  unfold present, cvp_get. simpl. unfold cvp_get.
  destruct (Py.get name (inventory w)) as [key |]; simpl; split.
  - intros _. now exists key.
  - intros _. now exists (container_record name key).
  - intros [d [=]].
  - intros [key [=]].
Qed.

(** [cvp_client] is a server that does what it is asked. *)
Lemma cvp_client_well_behaved (root : string) :
  well_behaved cvp_client root (cvp_ok root).
Proof.
  constructor.
  - intros node_id w [Hroot _]. simpl. now rewrite Hroot.
  - intros w [_ Hthere]. now apply cvp_present.
  - intros name w _. exists (cvp_get name w). split; [reflexivity |].
    unfold cvp_get. destruct (Py.get name (inventory w)) as [key |]; simpl; [| discriminate].
    intros d [= <-]. now exists key.
  - intros name parent key w [Hroot [rk Hthere]].
    exists {| data_status := "success"; data_taskIds := [] |}, (cvp_add name w).
    split; [reflexivity |]. split; [| split].
    + split; [exact Hroot |]. exists rk. simpl. now apply get_app_found.
    + apply cvp_present. simpl. apply get_app_last.
    + intros other Hp. apply cvp_present in Hp as [k Hk].
      apply cvp_present. exists k. simpl. now apply get_app_found.
Qed.

(** C3 (the code counts a failed creation): [{A: {parent_container: Tenant}}]
    on a server holding only [Tenant], where both calls of [add_container]
    raise (the sixth and the eleventh remote call). [A] is not created, and
    the result counts it, twice: [A] comes twice in the resolver's list and
    [container_create] answers [success: True] each time. *)
Theorem failed_create_is_counted :
  let script := [false; false; false; false; false; true;
                 false; false; false; false; true] in
  let run := manager_containers_create (faulty cvp_client) false 3 single
               (start (fresh_cvp "Tenant", script)) in
  fst run = Ret {| count_new_containers := 2; list_new_containers := ["A"; "A"] |} /\
  adds (calls (snd run)) = ["A"; "A"] /\
  inventory (fst (world (snd run))) = [("Tenant", "root")].
Proof. vm_compute. repeat split. Qed.

(** C4 (a failed key lookup ends the run): scenario A on a server holding
    only [Tenant], where the fifth remote call raises: the lookup of
    [container_get_id] for the parent of [Fabric]. [container_get_id] catches
    the failure, then reads ['key'] in the empty dictionary it started from:
    [KeyError] leaves [manager_containers_create], nothing is created and
    [Spines] is never looked at. *)
Theorem failed_key_lookup_ends_the_run :
  let run := manager_containers_create (faulty cvp_client) false 3 scenario_A
               (start (fresh_cvp "Tenant", [false; false; false; false; true])) in
  fst run = Raise (KeyError "key") /\
  calls (snd run)
  = [CallFilterTopology "root"; CallGetContainerByName "Tenant";
     CallGetContainerByName "Fabric"; CallGetContainerByName "Tenant";
     CallGetContainerByName "Tenant"] /\
  inventory (fst (world (snd run))) = [("Tenant", "root")].
Proof. vm_compute. repeat split. Qed.

(** The same failure in [container_get_id] alone, against any client: a
    lookup that raises never gives [None], it gives [KeyError]. *)
Lemma container_get_id_failed_lookup {W} (client : CvpClient W) name s w :
  get_container_by_name client name (world s) = (Fails, w) ->
  fst (container_get_id client name s) = Raise (KeyError "key").
Proof.
  intros E. unfold container_get_id, try_except, try_except_else, bind,
    api_get_container_by_name, remote.
  now rewrite E.
Qed.

(** C5 (cv_device_v3 tests [is_valid] the wrong way round): with both
    libraries there and [state: present], input that passes validation ends
    in [fail_json] with the message for invalid input, and input that does
    not pass goes on to the manager and [exit_json]. *)
Theorem device_main_rejects_valid_input {D : Type} (manager_data : D) (manager_changed : bool) :
  cv_device_v3_main true true "present" true manager_data manager_changed
  = FailJson DeviceInputInvalid /\
  cv_device_v3_main true true "present" false manager_data manager_changed
  = ExitJson {| dev_changed := manager_changed; dev_data := manager_data |}.
Proof. split; reflexivity. Qed.

(** cv_container_v3 tests the verdict the right way round, and then never
    reaches its [fail_json]: building the log message raises [KeyError]. Input
    that passes goes on. *)
Lemma container_main_on_validation {W} (client : CvpClient W) check_mode
    (validate_cv_inputs : UserTopology -> bool) fuel topology mode s :
  (validate_cv_inputs topology = false ->
   cv_container_v3_main client check_mode true true validate_cv_inputs fuel topology mode s
   = (Raise (KeyError "configlets"), s)) /\
  (validate_cv_inputs topology = true ->
   forall s',
   cv_container_v3_main client check_mode true true validate_cv_inputs fuel topology mode s
   <> (Ret (FailJson ContainerInputInvalid), s')).
Proof.
  unfold cv_container_v3_main, module_definitions. rewrite bind_ret.
  split; intros ->; simpl; [reflexivity |].
  intros s'. destruct (mode_creates mode); [| discriminate].
  unfold bind.
  destruct (manager_containers_create client check_mode fuel topology s) as [[r | e |] s1];
    try discriminate.
  destruct (count_new_containers r >? 0)%Z; discriminate.
Qed.

(** C9 (a dry run is not counted like a real one): [{A: {parent_container:
    Tenant}}] on a server holding only [Tenant]. The dry run counts [A] twice,
    once for each time the resolver's list names it, since nothing is created
    in between; the real run counts it once. And in check mode too a failed
    key lookup ends [container_create] with [KeyError('key')]: the parent
    [Tenant] is there, the second remote call raises, and no [success: True]
    comes back. *)
Theorem dry_run_is_not_counted_like_a_real_run :
  let w := fresh_cvp "Tenant" in
  fst (manager_containers_create cvp_client true 3 single (start w))
  = Ret {| count_new_containers := 2; list_new_containers := ["A"; "A"] |} /\
  fst (manager_containers_create cvp_client false 3 single (start w))
  = Ret {| count_new_containers := 1; list_new_containers := ["A"] |} /\
  present cvp_client w "Tenant" /\
  container_create (faulty cvp_client) true "A" "Tenant" (start (w, [false; true]))
  = (Raise (KeyError "key"),
     {| world := (w, []);
        calls := [CallGetContainerByName "Tenant"; CallGetContainerByName "Tenant"] |}).
Proof.
  intros w. split; [reflexivity |]. split; [reflexivity |]. split; [| reflexivity].
  now exists (container_record "Tenant" "root").
Qed.


(** ** The statements above at work on scenario A *)

Lemma scenario_A_wf : Py.wf scenario_A.
Proof.
  unfold Py.wf. simpl. repeat constructor; simpl; intuition discriminate.
Qed.

Lemma fresh_cvp_ok root : cvp_ok root (fresh_cvp root).
Proof.
  split; [reflexivity |]. exists "root". simpl. now rewrite String.eqb_refl.
Qed.





(** [Fabric] in check mode on a server holding only [Tenant]. *)
Lemma check_mode_simulates_create_witness :
  let s := start (fresh_cvp "Tenant") in
  let s4 := {| world := fresh_cvp "Tenant";
               calls := [CallGetContainerByName "Tenant"; CallGetContainerByName "Fabric";
                         CallGetContainerByName "Tenant"; CallGetContainerByName "Tenant"] |} in
  (forall container parent s0,
     adds (calls (snd (container_create cvp_client true container parent s0)))
     = adds (calls s0)) /\
  container_create cvp_client true "Fabric" "Tenant"
    (logged (logged s (CallGetContainerByName "Tenant")) (CallGetContainerByName "Fabric"))
  = (Ret {| success := true; taskIDs := UNSET; container := "Fabric" |}, s4) /\
  adds (calls s4) = adds (calls s) /\
  create_step cvp_client true scenario_A (0%Z, []) "Fabric" s
  = (Ret (1%Z, ["Fabric"]), s4) /\
  exists s5,
    create_step cvp_client false scenario_A (0%Z, []) "Fabric" s
    = (Ret (1%Z, ["Fabric"]), s5) /\
    adds (calls s5) = adds (calls s) ++ ["Fabric"].
Proof.
  intros s s4.
  apply (@check_mode_simulates_create Cvp cvp_client scenario_A (0%Z, []) "Fabric"
           (child_of "Tenant") s
           (logged s (CallGetContainerByName "Tenant"))
           (logged (logged s (CallGetContainerByName "Tenant"))
                   (CallGetContainerByName "Fabric"))
           (logged (logged (logged s (CallGetContainerByName "Tenant"))
                           (CallGetContainerByName "Fabric"))
                   (CallGetContainerByName "Tenant"))
           s4 (Some "root")); reflexivity.
Defined.

(** The first run of scenario A. *)
Lemma manager_result_invariant_witness :
  let run := manager_containers_create cvp_client false 3 scenario_A
               (start (fresh_cvp "Tenant")) in
  let result := {| count_new_containers := 2;
                   list_new_containers := ["Fabric"; "Spines"] |} in
  run = (Ret result, snd run) /\
  count_new_containers result = Z.of_nat (List.length (list_new_containers result)) /\
  (0 <= count_new_containers result)%Z /\
  (forall name, In name (list_new_containers result) -> In name (Py.keys scenario_A)) /\
  exists root order,
    list_container_from_top 3 scenario_A root = Some order /\
    subseq (list_new_containers result) order.
Proof.
  intros run result. split; [reflexivity |].
  apply (@manager_result_invariant Cvp cvp_client false 3 scenario_A
           (start (fresh_cvp "Tenant")) result (snd run)).
  reflexivity.
Defined.

(** ** Containers the resolver cannot place *)

Lemma parents_first_resolvable d root l :
  parents_first d root l -> forall name, In name l -> resolvable d root name.
Proof.
  induction 1 as [| l n spec Hl IH Hin Hpar]; intros name Hname; [destruct Hname |].
  apply in_app_or in Hname as [Hname | [<- | []]]; [now apply IH |].
  destruct Hpar as [Hroot | Hplaced].
  - now apply under_root with (spec := spec).
  - apply under_resolvable with (spec := spec); [assumption | now apply IH].
Qed.

Section Remote_calls.

Context {W : Type}.
Variable client : CvpClient W.
Variable check_mode : bool.

Lemma issues_ret {A} (a : A) names : issues (ret (W := W) a) names.
Proof.
  intros s r s' [= <- <-]. exists []. rewrite app_nil_r. split; [reflexivity |].
  intros x [].
Qed.

Lemma issues_raise {A} e names : issues (raise (W := W) (A := A) e) names.
Proof.
  intros s r s' [= <- <-]. exists []. rewrite app_nil_r. split; [reflexivity |].
  intros x [].
Qed.

Lemma issues_seq names (s s1 s2 : run_state W) :
  (exists cs, calls s1 = calls s ++ cs /\ incl (adds cs) names) ->
  (exists cs, calls s2 = calls s1 ++ cs /\ incl (adds cs) names) ->
  exists cs, calls s2 = calls s ++ cs /\ incl (adds cs) names.
Proof.
  intros (cs1 & E1 & H1) (cs2 & E2 & H2). exists (cs1 ++ cs2). split.
  - now rewrite E2, E1, app_assoc.
  - rewrite adds_app. now apply incl_app.
Qed.

Lemma issues_try {A B} (m : M W A) (handler : M W B) (orelse : A -> M W B) names :
  issues m names -> issues handler names -> (forall a, issues (orelse a) names) ->
  issues (try_except_else m handler orelse) names.
Proof.
  intros Hm Hh Ho s r s'. unfold try_except_else.
  destruct (m s) as [[a | e |] s1] eqn:E; intros H; pose proof (Hm _ _ _ E) as H1.
  - exact (@issues_seq names s s1 s' H1 (Ho a _ _ _ H)).
  - exact (@issues_seq names s s1 s' H1 (Hh _ _ _ H)).
  - injection H as <- <-. exact H1.
Qed.

Lemma issues_bind {A B} (m : M W A) (k : A -> M W B) names :
  issues m names -> (forall a, issues (k a) names) -> issues (bind m k) names.
Proof.
  intros Hm Hk s r s'. unfold bind.
  destruct (m s) as [[a | e |] s1] eqn:E; intros H; pose proof (Hm _ _ _ E) as H1.
  - exact (@issues_seq names s s1 s' H1 (Hk a _ _ _ H)).
  - injection H as <- <-. exact H1.
  - injection H as <- <-. exact H1.
Qed.

Lemma issues_weaken {A} (m : M W A) names names' :
  issues m names -> incl names names' -> issues m names'.
Proof.
  intros Hm Hincl s r s' H. destruct (Hm _ _ _ H) as (cs & E & Hcs).
  exists cs. split; [exact E | now apply incl_tran with (m := names)].
Qed.

Lemma issues_remote {A} (c : call) (f : W -> reply A * W) :
  issues (remote c f) (adds [c]).
Proof.
  intros s r s' H. exists [c]. split; [exact (remote_calls _ _ _ H) | apply incl_refl].
Qed.

Lemma issues_is_container_exist name : issues (is_container_exist client name) [].
Proof.
  unfold is_container_exist, try_except. apply issues_try.
  - apply issues_bind; [apply (issues_remote (CallGetContainerByName name)) |].
    intros [d |]; apply issues_ret.
  - apply issues_ret.
  - intros a. apply issues_ret.
Qed.

Lemma issues_container_get_id name : issues (container_get_id client name) [].
Proof.
  unfold container_get_id, try_except. apply issues_bind.
  - apply issues_try; [apply (issues_remote (CallGetContainerByName name)) | |];
      [apply issues_ret | intros a; apply issues_ret].
  - intros [d |]; [| apply issues_ret].
    destruct (Py.get "key" d); [apply issues_ret | apply issues_raise].
Qed.

(** [container_create] calls [add_container] for its own container only. *)
Lemma issues_container_create name parent :
  issues (container_create client check_mode name parent) [name].
Proof.
  unfold container_create. apply issues_bind.
  - apply issues_weaken with (names := []); [apply issues_is_container_exist |].
    intros x [].
  - intros [|]; [| apply issues_ret].
    apply issues_bind.
    + apply issues_weaken with (names := []); [apply issues_container_get_id |].
      intros x [].
    + intros parent_id. apply issues_bind; [| intros ids; apply issues_ret].
      destruct check_mode; [apply issues_ret |].
      apply issues_try.
      * apply (issues_remote (CallAddContainer name parent parent_id)).
      * apply issues_ret.
      * intros resp. destruct (String.eqb _ _); apply issues_ret.
Qed.

Lemma issues_create_step (user_topology : UserTopology) acc name :
  issues (create_step client check_mode user_topology acc name) [name].
Proof.
  assert (Hparent : forall A (k : string -> M W A),
            (forall parent, issues (k parent) [name]) ->
            issues (bind (topology_parent user_topology name) k) [name]).
  { intros A k Hk. apply issues_bind; [| exact Hk].
    unfold topology_parent.
    destruct (Py.get name user_topology); [apply issues_ret | apply issues_raise]. }
  assert (Hexist : forall container, issues (is_container_exist client container) [name]).
  { intros c. apply issues_weaken with (names := []);
      [apply issues_is_container_exist | intros x []]. }
  unfold create_step. destruct acc as [counter created].
  apply Hparent. intros parent.
  apply issues_bind; [apply Hexist |]. intros [|]; [| apply issues_ret].
  apply issues_bind; [apply Hexist |]. intros [|]; simpl; [apply issues_ret |].
  apply Hparent. intros parent'.
  apply issues_bind; [apply issues_container_create |].
  intros action_result. destruct (success action_result); apply issues_ret.
Qed.

Lemma issues_create_loop (user_topology : UserTopology) names :
  forall acc, issues (create_loop client check_mode user_topology names acc) names.
Proof.
  induction names as [| name names IH]; intros acc; simpl.
  - apply issues_ret.
  - apply issues_bind.
    + apply issues_weaken with (names := [name]); [apply issues_create_step |].
      intros x [<- | []]. now left.
    + intros acc'. apply issues_weaken with (names := names); [apply IH |].
      intros x Hx. now right.
Qed.

(** C1, as the code has it. A container whose chain of parents does not
    reach the root name the server gave is in no list the resolver returns,
    whatever the fuel; the manager's first remote call is the topology
    request for the root name, no [add_container] is ever called for that
    container, however the run ends, and a result does not list it. The
    resolver itself calls nothing and raises nothing, and it does return
    when some container sits directly under the root. *)
Theorem unresolvable_container_is_never_placed fuel (user_topology : UserTopology)
    root name s s0 r s' :
  container_get_root client s = (Ret root, s0) ->
  ~ resolvable user_topology root name ->
  manager_containers_create client check_mode fuel user_topology s = (r, s') ->
  (forall fuel' order,
     list_container_from_top fuel' user_topology root = Some order -> ~ In name order) /\
  (exists cs, calls s' = calls s ++ CallFilterTopology "root" :: cs /\
              ~ In name (adds cs)) /\
  (forall result, r = Ret result -> ~ In name (list_new_containers result)) /\
  (forall s1 : run_state W, exists out,
     run_list_container_from_top fuel user_topology root s1 = (out, s1) /\
     forall e, out <> Raise e) /\
  ((exists item, In item user_topology /\
                 eq_opt (parent_container (snd item)) root = true) ->
   exists order,
     list_container_from_top (Py.len user_topology + 2) user_topology root = Some order).
Proof.
  intros Hroot Hname Hrun.
  assert (Hnever : forall fuel' order,
            list_container_from_top fuel' user_topology root = Some order ->
            ~ In name order).
  { intros fuel' order Horder Hin. apply Hname.
    apply parents_first_resolvable with (l := order); [| exact Hin].
    eapply resolve_loop_parents_first; [apply pf_nil | exact Horder]. }
  split; [exact Hnever |].
  destruct (container_get_root_total client s) as (root' & s0' & Hroot' & Hcalls).
  rewrite Hroot in Hroot'. injection Hroot' as <- <-.
  split; [| split; [| split]].
  - unfold manager_containers_create in Hrun.
    rewrite (bind_ret_l _ _ _ Hroot) in Hrun.
    unfold bind at 1, run_list_container_from_top in Hrun.
    destruct (list_container_from_top fuel user_topology root) as [order |] eqn:Horder.
    + assert (Hloop : issues
                (acc <- create_loop client check_mode user_topology order (0%Z, []) ;;
                 ret {| count_new_containers := fst acc; list_new_containers := snd acc |})
                order).
      { apply issues_bind; [apply issues_create_loop | intros acc; apply issues_ret]. }
      destruct (Hloop _ _ _ Hrun) as (cs & E & Hcs).
      exists cs. split; [now rewrite E, Hcalls, <- app_assoc |].
      intros Hin. apply (Hnever _ _ Horder). now apply Hcs.
    + injection Hrun as _ <-. exists []. split; [exact Hcalls | intros []].
  - intros result ->.
    intros Hin. unfold manager_containers_create in Hrun.
    rewrite (bind_ret_l _ _ _ Hroot) in Hrun.
    unfold bind at 1, run_list_container_from_top in Hrun.
    destruct (list_container_from_top fuel user_topology root) as [order' |] eqn:Horder;
      [| discriminate].
    apply bind_inv in Hrun as (acc & s3 & Hloop & Hret). injection Hret as <- _.
    apply create_loop_shape in Hloop as (picked & Hpicked & Hl & _).
    simpl in Hl, Hin. rewrite Hl in Hin.
    apply (Hnever _ _ Horder). now apply subseq_In with (l1 := picked).
  - intros s1. unfold run_list_container_from_top.
    destruct (list_container_from_top fuel user_topology root);
      eexists; (split; [reflexivity | discriminate]).
  - apply list_container_from_top_returns.
Qed.

End Remote_calls.

Lemma stray_orphan_unresolvable : ~ resolvable stray (Some "Tenant") "Orphan".
Proof.
  intros H. inversion H as [n spec Hin Hroot | n spec Hin Hparent]; subst.
  - destruct Hin as [[=] | [[= <-] | []]]. discriminate Hroot.
  - destruct Hin as [[=] | [[= <-] | []]].
    inversion Hparent as [n spec Hin _ | n spec Hin _]; subst;
      destruct Hin as [[=] | [[=] | []]].
Qed.

(** [Orphan], declared under a parent [Ghost] that nobody declares, next to
    [A] under the root [Tenant]. *)
Lemma unresolvable_container_is_never_placed_witness :
  let s := start (fresh_cvp "Tenant") in
  let run := manager_containers_create cvp_client false 4 stray s in
  (forall fuel' order,
     list_container_from_top fuel' stray (Some "Tenant") = Some order ->
     ~ In "Orphan" order) /\
  (exists cs, calls (snd run) = calls s ++ CallFilterTopology "root" :: cs /\
              ~ In "Orphan" (adds cs)) /\
  (forall result, fst run = Ret result -> ~ In "Orphan" (list_new_containers result)) /\
  (forall s1 : run_state Cvp, exists out,
     run_list_container_from_top 4 stray (Some "Tenant") s1 = (out, s1) /\
     forall e, out <> Raise e) /\
  ((exists item, In item stray /\
                 eq_opt (parent_container (snd item)) (Some "Tenant") = true) ->
   exists order, list_container_from_top (Py.len stray + 2) stray (Some "Tenant") = Some order).
Proof.
  intros s run.
  apply (@unresolvable_container_is_never_placed Cvp cvp_client false 4 stray
           (Some "Tenant") "Orphan" s (logged s (CallFilterTopology "root"))
           (fst run) (snd run)).
  - reflexivity.
  - exact stray_orphan_unresolvable.
  - reflexivity.
Defined.

(** C1 as the specification has it fails twice. On scenario C the resolver
    returns for no amount of fuel; and with [A] next to [Orphan] the run
    ends normally, after ten remote calls, having created [A] and said
    nothing about [Orphan]. *)
Lemma unresolvable_parent_is_not_reported :
  (~ exists fuel order,
       list_container_from_top fuel scenario_C (Some "Tenant") = Some order) /\
  (let run := manager_containers_create cvp_client false 4 stray
                (start (fresh_cvp "Tenant")) in
   fst run = Ret {| count_new_containers := 1; list_new_containers := ["A"] |} /\
   calls (snd run)
   = [CallFilterTopology "root"; CallGetContainerByName "Tenant";
      CallGetContainerByName "A"; CallGetContainerByName "Tenant";
      CallGetContainerByName "Tenant"; CallAddContainer "A" "Tenant" (Some "root");
      CallGetContainerByName "Tenant"; CallGetContainerByName "A";
      CallGetContainerByName "Tenant"; CallGetContainerByName "A"]).
Proof.
  split.
  - intros (fuel & order & H).
    unfold list_container_from_top in H.
    rewrite resolve_loop_stuck in H by reflexivity. discriminate.
  - vm_compute. split; reflexivity.
Qed.

(** * More of the code *)

(** ** The resolver: size of its list, and when it returns *)

Lemma place_at_most_two root l item :
  List.length (place root l item) <= List.length l + 2.
Proof.
  destruct item as [c spec]. unfold place.
  destruct (eq_opt _ _); destruct (any_eq _ _); repeat rewrite length_app; simpl; lia.
Qed.

Lemma fold_place_at_most root items l :
  List.length (fold_left (place root) items l) <= List.length l + 2 * List.length items.
Proof.
  revert l. induction items as [| item items IH]; intros l; simpl; [lia |].
  etransitivity; [apply IH |]. pose proof (place_at_most_two root l item). lia.
Qed.

Lemma resolve_loop_at_most fuel d root l result :
  List.length l <= 3 * Py.len d ->
  resolve_loop fuel d root l = Some result ->
  List.length result <= 3 * Py.len d.
Proof.
  revert l. induction fuel as [| fuel IH]; intros l Hl; simpl; [discriminate |].
  destruct (Nat.ltb _ _) eqn:E.
  - apply IH. apply Nat.ltb_lt in E.
    pose proof (fold_place_at_most root d l) as H. unfold scan, Py.len in *. lia.
  - now intros [= <-].
Qed.

(** X1: a list the resolver returns is longer than the topology has
    containers, at most three times as long, and never free of repetitions. *)
Theorem resolver_output_length fuel (container_list : UserTopology) root l :
  list_container_from_top fuel container_list root = Some l ->
  Py.len container_list + 1 <= List.length l /\
  List.length l <= 3 * Py.len container_list /\
  ~ NoDup l.
Proof.
  intros H. split; [| split].
  - exact (resolve_loop_length _ _ _ _ H).
  - apply (@resolve_loop_at_most fuel container_list root [] l); [simpl; lia | exact H].
  - eapply list_container_from_top_repeats. exact H.
Qed.

Lemma resolver_output_length_witness :
  list_container_from_top 3 scenario_A (Some "Tenant")
  = Some ["Fabric"; "Spines"; "Fabric"; "Spines"] /\
  Py.len scenario_A + 1 <= List.length ["Fabric"; "Spines"; "Fabric"; "Spines"] /\
  List.length ["Fabric"; "Spines"; "Fabric"; "Spines"] <= 3 * Py.len scenario_A /\
  ~ NoDup ["Fabric"; "Spines"; "Fabric"; "Spines"].
Proof.
  split; [reflexivity |].
  apply (@resolver_output_length 3 scenario_A (Some "Tenant")). reflexivity.
Defined.

(** X2: in a list the resolver returns, every entry is a container of the
    topology, and either its parent is the root name or an entry for its
    parent comes earlier in the list. *)
Theorem resolver_places_parents_first fuel (container_list : UserTopology) root l :
  list_container_from_top fuel container_list root = Some l ->
  forall l1 name l2, l = l1 ++ name :: l2 ->
  exists spec, In (name, spec) container_list /\
    (eq_opt (parent_container spec) root = true \/ In (parent_container spec) l1).
Proof.
  intros H. apply parents_first_split.
  eapply resolve_loop_parents_first; [apply pf_nil | exact H].
Qed.

Lemma resolver_places_parents_first_witness :
  list_container_from_top 4 chain4 (Some "Tenant") = Some ["A"; "B"; "A"; "C"; "B"; "A"] /\
  exists spec, In ("C", spec) chain4 /\
    (eq_opt (parent_container spec) (Some "Tenant") = true \/
     In (parent_container spec) ["A"; "B"; "A"]).
Proof.
  split; [reflexivity |].
  apply (@resolver_places_parents_first 4 chain4 (Some "Tenant")
           ["A"; "B"; "A"; "C"; "B"; "A"] eq_refl ["A"; "B"; "A"] "C" ["B"; "A"]).
  reflexivity.
Defined.

Lemma has_root_child_spec d root :
  has_root_child d root = true <->
  exists item, In item d /\ eq_opt (parent_container (snd item)) root = true.
Proof. unfold has_root_child. apply existsb_exists. Qed.

Lemma no_root_child_scan d root :
  has_root_child d root = false -> scan d root [] = [].
Proof.
  unfold scan, has_root_child. induction d as [| [c spec] d IH]; simpl; [reflexivity |].
  intros H. apply orb_false_iff in H as [Hitem Hrest].
  rewrite Hitem. simpl. now apply IH.
Qed.

Lemma has_root_child_None d : has_root_child d None = false.
Proof.
  unfold has_root_child. induction d as [| item d IH]; simpl; [reflexivity | exact IH].
Qed.

(** X3: the loop of the resolver ends exactly when some container has the
    root name as its parent, and then within [len(container_list) + 2] tests
    of its condition. Otherwise it runs for ever: so it does on the empty
    topology, and on every topology when the root name is [None]. *)
Theorem resolver_returns_iff_root_child (container_list : UserTopology) root :
  (has_root_child container_list root = true <->
   exists fuel l, list_container_from_top fuel container_list root = Some l) /\
  (has_root_child container_list root = true <->
   exists l, list_container_from_top (Py.len container_list + 2) container_list root
             = Some l) /\
  (forall fuel, list_container_from_top fuel [] root = None) /\
  (forall fuel, list_container_from_top fuel container_list None = None).
Proof.
  assert (Hstuck : forall d r, has_root_child d r = false ->
                   forall fuel, list_container_from_top fuel d r = None).
  { intros d r H fuel. apply resolve_loop_stuck. now apply no_root_child_scan. }
  assert (Hret : has_root_child container_list root = true ->
                 exists l, list_container_from_top (Py.len container_list + 2)
                             container_list root = Some l).
  { intros H. apply list_container_from_top_returns. now apply has_root_child_spec. }
  assert (Hconv : forall fuel l, list_container_from_top fuel container_list root = Some l ->
                  has_root_child container_list root = true).
  { intros fuel l H. destruct (has_root_child container_list root) eqn:E; [reflexivity |].
    rewrite (Hstuck _ _ E) in H. discriminate. }
  repeat split.
  - intros H. destruct (Hret H) as [l Hl]. now exists (Py.len container_list + 2), l.
  - intros (fuel & l & H). exact (Hconv _ _ H).
  - exact Hret.
  - intros (l & H). exact (Hconv _ _ H).
  - apply Hstuck. reflexivity.
  - apply Hstuck. apply has_root_child_None.
Qed.

(** X4: when the topology request for the root name fails, the manager
    hangs, whatever the topology, the mode and the fuel: [container_get_root]
    answers [None], which is the parent of no container. The failed request is
    the only remote call. *)
Theorem manager_hangs_when_root_request_fails {W} (client : CvpClient W) check_mode fuel
    (user_topology : UserTopology) s w :
  filter_topology client "root" (world s) = (Fails, w) ->
  manager_containers_create client check_mode fuel user_topology s
  = (Diverge, {| world := w; calls := calls s ++ [CallFilterTopology "root"] |}).
Proof.
  intros H. unfold manager_containers_create.
  assert (Hroot : container_get_root client s
                  = (Ret None, {| world := w; calls := calls s ++ [CallFilterTopology "root"] |})).
  { unfold container_get_root, try_except_else, api_filter_topology, remote.
    now rewrite H. }
  rewrite (bind_ret_l _ _ _ Hroot).
  unfold bind, run_list_container_from_top.
  replace (list_container_from_top fuel user_topology None) with (@None (list string));
    [reflexivity |].
  symmetry. apply resolve_loop_stuck. apply no_root_child_scan.
  apply has_root_child_None.
Qed.

Lemma manager_hangs_when_root_request_fails_witness :
  let s := start (fresh_cvp "Tenant", [true]) in
  filter_topology (faulty cvp_client) "root" (world s) = (Fails, (fresh_cvp "Tenant", [])) /\
  manager_containers_create (faulty cvp_client) false 5 scenario_A s
  = (Diverge, {| world := (fresh_cvp "Tenant", []);
                 calls := calls s ++ [CallFilterTopology "root"] |}).
Proof.
  intros s. split; [reflexivity |].
  apply (@manager_hangs_when_root_request_fails _ (faulty cvp_client) false 5 scenario_A s).
  reflexivity.
Defined.

(** ** The helpers, whatever the client does *)

(** X5: [is_container_exist] never raises. It makes one remote call, the
    lookup, and answers [True] exactly when the lookup returned a container;
    a lookup that fails is the answer [False]. *)
Theorem is_container_exist_answers {W} (client : CvpClient W) name s :
  exists b,
    is_container_exist client name s
    = (Ret b, {| world := snd (get_container_by_name client name (world s));
                 calls := calls s ++ [CallGetContainerByName name] |}) /\
    (b = true <-> present client (world s) name).
Proof.
  unfold is_container_exist, try_except, try_except_else, bind,
    api_get_container_by_name, remote, ret, present.
  destruct (get_container_by_name client name (world s)) as [[[d |] |] w]; simpl.
  - exists true. split; [reflexivity |]. split; [now exists d | trivial].
  - exists false. split; [reflexivity |]. split; [discriminate | now intros [d [=]]].
  - exists false. split; [reflexivity |]. split; [discriminate | now intros [d [=]]].
Qed.

(** X6: [container_get_root] never raises. It makes one remote call, the
    topology request for node ['root'], and answers the name the client gave,
    or [None] exactly when the request failed. *)
Theorem container_get_root_answers {W} (client : CvpClient W) s :
  exists root,
    container_get_root client s
    = (Ret root, {| world := snd (filter_topology client "root" (world s));
                    calls := calls s ++ [CallFilterTopology "root"] |}) /\
    (root = None <-> fst (filter_topology client "root" (world s)) = Fails) /\
    (forall name, root = Some name <->
                  fst (filter_topology client "root" (world s)) = Reply name).
Proof.
  unfold container_get_root, try_except_else, api_filter_topology, remote, ret.
  destruct (filter_topology client "root" (world s)) as [[name |] w]; simpl.
  - exists (Some name). split; [reflexivity |]. split.
    + split; discriminate.
    + intros n. split; intros [= ->]; reflexivity.
  - exists None. split; [reflexivity |]. split.
    + split; reflexivity.
    + intros n. split; discriminate.
Qed.

(** X7: [facts_get_topology] never raises either. It makes one remote call,
    the topology request for the node it is given, and returns what the
    client answered, or the empty dictionary it started from exactly when
    the request failed. *)
Theorem facts_get_topology_answers {W} (client : CvpClient W) root_node s :
  exists topology,
    facts_get_topology client root_node s
    = (Ret topology, {| world := snd (filter_topology client root_node (world s));
                        calls := calls s ++ [CallFilterTopology root_node] |}) /\
    (topology = None <-> fst (filter_topology client root_node (world s)) = Fails) /\
    (forall answer, topology = Some answer <->
                    fst (filter_topology client root_node (world s)) = Reply answer).
Proof.
  unfold facts_get_topology, try_except, try_except_else, bind,
    api_filter_topology, remote, ret.
  destruct (filter_topology client root_node (world s)) as [[name |] w]; simpl.
  - exists (Some name). split; [reflexivity |]. split.
    + split; discriminate.
    + intros n. split; intros [= ->]; reflexivity.
  - exists None. split; [reflexivity |]. split.
    + split; reflexivity.
    + intros n. split; discriminate.
Qed.

(** X8: [container_get_id] makes one remote call, the lookup. It returns the
    key of the container the client answered, and [None] when the client
    answered [None]. It raises [KeyError('key')], and nothing else, in the
    two other cases: the container answered has no key, and the lookup
    failed. *)
Theorem container_get_id_outcomes {W} (client : CvpClient W) name s :
  container_get_id client name s
  = (match fst (get_container_by_name client name (world s)) with
     | Reply None => Ret None
     | Reply (Some d) =>
         match Py.get "key" d with
         | Some key => Ret (Some key)
         | None => Raise (KeyError "key")
         end
     | Fails => Raise (KeyError "key")
     end,
     {| world := snd (get_container_by_name client name (world s));
        calls := calls s ++ [CallGetContainerByName name] |}).
Proof.
  unfold container_get_id, try_except, try_except_else, bind,
    api_get_container_by_name, remote, ret, raise.
  destruct (get_container_by_name client name (world s)) as [[[d |] |] w]; simpl;
    [destruct (Py.get "key" d) | |]; reflexivity.
Qed.

Ltac create_case lookups creates :=
  exists lookups, creates; simpl;
  split; [rewrite <- ?app_assoc, ?app_nil_r; reflexivity |];
  split; [auto |];
  split; [solve [left; reflexivity | right; split; [reflexivity | eexists; reflexivity]] |];
  split; [discriminate |];
  split;
    [ first [ intros ? [= <-]; split; reflexivity | intros ? [=] ]
    | first [ intros ? [= <-]; simpl; repeat split; auto; try discriminate; congruence
            | intros ? [=] ] ].

(** X9: [container_create] looks up its parent and nothing else, at most
    twice; it calls [add_container] at most once, after the lookups, outside
    check mode only, and for its own container under that parent. It never
    lets an exception of [add_container] through: all it can raise is
    [KeyError('key')], and then [add_container] was not called. *)
Theorem container_create_calls {W} (client : CvpClient W) check_mode name parent s r s' :
  container_create client check_mode name parent s = (r, s') ->
  exists lookups creates,
    calls s' = calls s ++ lookups ++ creates /\
    (lookups = [CallGetContainerByName parent] \/
     lookups = [CallGetContainerByName parent; CallGetContainerByName parent]) /\
    (creates = [] \/
     check_mode = false /\ exists key, creates = [CallAddContainer name parent key]) /\
    r <> Diverge /\
    (forall e, r = Raise e -> e = KeyError "key" /\ creates = []) /\
    (forall result, r = Ret result ->
       container result = name /\
       (success result = false -> creates = []) /\
       (creates <> [] -> success result = true)).
Proof.
  unfold container_create, is_container_exist, container_get_id, try_except,
    try_except_else, bind, api_get_container_by_name, api_add_container, remote, ret, raise.
  destruct (get_container_by_name client parent (world s)) as [[[d |] |] w1]; simpl;
    [| intros [= <- <-]; create_case [CallGetContainerByName parent] (@nil call) ..].
  destruct (get_container_by_name client parent w1) as [[[d' |] |] w2]; simpl;
    [destruct (Py.get "key" d') as [key |]; simpl | |].
  - destruct check_mode; simpl.
    + intros [= <- <-].
      create_case [CallGetContainerByName parent; CallGetContainerByName parent] (@nil call).
    + destruct (add_container client name parent (Some key) w2) as [[resp |] w3]; simpl;
        [destruct (String.eqb (data_status resp) "success") |];
        intros [= <- <-];
        create_case [CallGetContainerByName parent; CallGetContainerByName parent]
                    [CallAddContainer name parent (Some key)].
  - intros [= <- <-].
    create_case [CallGetContainerByName parent; CallGetContainerByName parent] (@nil call).
  - destruct check_mode; simpl.
    + intros [= <- <-].
      create_case [CallGetContainerByName parent; CallGetContainerByName parent] (@nil call).
    + destruct (add_container client name parent None w2) as [[resp |] w3]; simpl;
        [destruct (String.eqb (data_status resp) "success") |];
        intros [= <- <-];
        create_case [CallGetContainerByName parent; CallGetContainerByName parent]
                    [CallAddContainer name parent None].
  - intros [= <- <-].
    create_case [CallGetContainerByName parent; CallGetContainerByName parent] (@nil call).
Qed.

Lemma container_create_calls_witness :
  let s := start (fresh_cvp "Tenant") in
  exists r s' lookups creates,
    container_create cvp_client false "Fabric" "Tenant" s = (r, s') /\
    calls s' = calls s ++ lookups ++ creates /\
    (lookups = [CallGetContainerByName "Tenant"] \/
     lookups = [CallGetContainerByName "Tenant"; CallGetContainerByName "Tenant"]) /\
    (creates = [] \/
     false = false /\ exists key, creates = [CallAddContainer "Fabric" "Tenant" key]) /\
    r <> Diverge /\
    (forall e, r = Raise e -> e = KeyError "key" /\ creates = []) /\
    (forall result, r = Ret result ->
       container result = "Fabric" /\
       (success result = false -> creates = []) /\
       (creates <> [] -> success result = true)).
Proof.
  intros s.
  destruct (@container_create_calls Cvp cvp_client false "Fabric" "Tenant" s
              (fst (container_create cvp_client false "Fabric" "Tenant" s))
              (snd (container_create cvp_client false "Fabric" "Tenant" s)) eq_refl)
    as (lookups & creates & H).
  exists (fst (container_create cvp_client false "Fabric" "Tenant" s)),
         (snd (container_create cvp_client false "Fabric" "Tenant" s)),
         lookups, creates.
  split; [reflexivity | exact H].
Defined.

(** ** The manager: what it calls and what it raises *)

Section Calls_and_exceptions.

Context {W : Type}.
Variable client : CvpClient W.

Lemma emits_ret {A} (a : A) P : emits (ret (W := W) a) P.
Proof.
  intros s r s' [= <- <-]. exists []. now rewrite app_nil_r.
Qed.

Lemma emits_raise {A} e P : emits (raise (W := W) (A := A) e) P.
Proof.
  intros s r s' [= <- <-]. exists []. now rewrite app_nil_r.
Qed.

Lemma emits_seq P (s s1 s2 : run_state W) :
  (exists cs, calls s1 = calls s ++ cs /\ Forall P cs) ->
  (exists cs, calls s2 = calls s1 ++ cs /\ Forall P cs) ->
  exists cs, calls s2 = calls s ++ cs /\ Forall P cs.
Proof.
  intros (cs1 & E1 & H1) (cs2 & E2 & H2). exists (cs1 ++ cs2). split.
  - now rewrite E2, E1, app_assoc.
  - apply Forall_app. now split.
Qed.

Lemma emits_bind {A B} (m : M W A) (k : A -> M W B) P :
  emits m P -> (forall a, emits (k a) P) -> emits (bind m k) P.
Proof.
  intros Hm Hk s r s'. unfold bind.
  destruct (m s) as [[a | e |] s1] eqn:E; intros H; pose proof (Hm _ _ _ E) as H1.
  - exact (@emits_seq P s s1 s' H1 (Hk a _ _ _ H)).
  - injection H as <- <-. exact H1.
  - injection H as <- <-. exact H1.
Qed.

Lemma emits_try {A B} (m : M W A) (handler : M W B) (orelse : A -> M W B) P :
  emits m P -> emits handler P -> (forall a, emits (orelse a) P) ->
  emits (try_except_else m handler orelse) P.
Proof.
  intros Hm Hh Ho s r s'. unfold try_except_else.
  destruct (m s) as [[a | e |] s1] eqn:E; intros H; pose proof (Hm _ _ _ E) as H1.
  - exact (@emits_seq P s s1 s' H1 (Ho a _ _ _ H)).
  - exact (@emits_seq P s s1 s' H1 (Hh _ _ _ H)).
  - injection H as <- <-. exact H1.
Qed.

Lemma emits_remote {A} (c : call) (f : W -> reply A * W) (P : call -> Prop) :
  P c -> emits (remote c f) P.
Proof.
  intros Hc s r s' H. exists [c]. split; [exact (remote_calls _ _ _ H) |].
  now constructor.
Qed.

Lemma emits_is_container_exist name (P : call -> Prop) :
  P (CallGetContainerByName name) -> emits (is_container_exist client name) P.
Proof.
  intros HP. unfold is_container_exist, try_except. apply emits_try.
  - apply emits_bind; [now apply emits_remote |]. intros [d |]; apply emits_ret.
  - apply emits_ret.
  - intros a. apply emits_ret.
Qed.

Lemma emits_container_get_id name (P : call -> Prop) :
  P (CallGetContainerByName name) -> emits (container_get_id client name) P.
Proof.
  intros HP. unfold container_get_id, try_except. apply emits_bind.
  - apply emits_try; [now apply emits_remote | apply emits_ret |].
    intros a. apply emits_ret.
  - intros [d |]; [| apply emits_ret].
    destruct (Py.get "key" d); [apply emits_ret | apply emits_raise].
Qed.

Lemma emits_container_create check_mode name parent (P : call -> Prop) :
  P (CallGetContainerByName parent) ->
  (check_mode = false -> forall key, P (CallAddContainer name parent key)) ->
  emits (container_create client check_mode name parent) P.
Proof.
  intros Hlookup Hadd. unfold container_create. apply emits_bind.
  - now apply emits_is_container_exist.
  - intros [|]; [| apply emits_ret].
    apply emits_bind; [now apply emits_container_get_id |].
    intros parent_id. apply emits_bind; [| intros ids; apply emits_ret].
    destruct check_mode; [apply emits_ret |].
    apply emits_try.
    + apply emits_remote. now apply Hadd.
    + apply emits_ret.
    + intros resp. destruct (String.eqb _ _); apply emits_ret.
Qed.

Lemma emits_bind_ret {A B} (a : A) (k : A -> M W B) P :
  emits (k a) P -> emits (bind (ret a) k) P.
Proof. intros Hk s r s' H. exact (Hk s r s' H). Qed.

Lemma emits_bind_raise {A B} e (k : A -> M W B) P : emits (bind (raise e) k) P.
Proof. intros s r s' H. exact (@emits_raise B e P s r s' H). Qed.

(** A turn of the loop: lookups, and at most [add_container] for the
    container of the turn under its declared parent, outside check mode. *)
Lemma emits_create_step check_mode (user_topology : UserTopology) acc name
    (P : call -> Prop) :
  (forall other, P (CallGetContainerByName other)) ->
  (check_mode = false ->
   forall spec key, Py.get name user_topology = Some spec ->
   P (CallAddContainer name (parent_container spec) key)) ->
  emits (create_step client check_mode user_topology acc name) P.
Proof.
  intros Hlookup Hadd.
  unfold create_step, topology_parent. destruct acc as [counter created].
  destruct (Py.get name user_topology) as [spec |] eqn:Hget;
    [apply emits_bind_ret | apply emits_bind_raise].
  apply emits_bind; [now apply emits_is_container_exist |].
  intros [|]; [| apply emits_ret].
  apply emits_bind; [now apply emits_is_container_exist |].
  intros [|]; simpl; [apply emits_ret |].
  apply emits_bind_ret. apply emits_bind.
  - apply emits_container_create; [apply Hlookup |].
    intros Hmode key. now apply Hadd.
  - intros action_result. destruct (success action_result); apply emits_ret.
Qed.

Lemma emits_create_loop check_mode (user_topology : UserTopology) names (P : call -> Prop) :
  (forall other, P (CallGetContainerByName other)) ->
  (check_mode = false ->
   forall name spec key, Py.get name user_topology = Some spec ->
   P (CallAddContainer name (parent_container spec) key)) ->
  forall acc, emits (create_loop client check_mode user_topology names acc) P.
Proof.
  intros Hlookup Hadd. induction names as [| name names IH]; intros acc; simpl.
  - apply emits_ret.
  - apply emits_bind; [| exact IH].
    apply emits_create_step; [exact Hlookup |].
    intros Hmode spec key. now apply Hadd.
Qed.

Lemma emits_manager check_mode fuel (user_topology : UserTopology) (P : call -> Prop) s r s' :
  (forall other, P (CallGetContainerByName other)) ->
  (check_mode = false ->
   forall name spec key, Py.get name user_topology = Some spec ->
   P (CallAddContainer name (parent_container spec) key)) ->
  manager_containers_create client check_mode fuel user_topology s = (r, s') ->
  exists cs, calls s' = calls s ++ CallFilterTopology "root" :: cs /\ Forall P cs.
Proof.
  intros Hlookup Hadd Hrun.
  destruct (container_get_root_total client s) as (root & s0 & Hroot & Hcalls).
  unfold manager_containers_create in Hrun.
  rewrite (bind_ret_l _ _ _ Hroot) in Hrun.
  assert (Hrest : emits
            (order <- run_list_container_from_top fuel user_topology root ;;
             acc <- create_loop client check_mode user_topology order (0%Z, []) ;;
             ret {| count_new_containers := fst acc; list_new_containers := snd acc |}) P).
  { apply emits_bind.
    - intros s1 r1 s1'. unfold run_list_container_from_top.
      destruct (list_container_from_top fuel user_topology root);
        intros [= <- <-]; exists []; now rewrite app_nil_r.
    - intros order. apply emits_bind; [now apply emits_create_loop |].
      intros acc. apply emits_ret. }
  destruct (Hrest _ _ _ Hrun) as (cs & E & Hcs).
  exists cs. split; [now rewrite E, Hcalls, <- app_assoc | exact Hcs].
Qed.

(** X10: however a run of the manager ends, its first remote call is the
    topology request for the root, and all the others are lookups by name or
    [add_container] for a container the user declared, under the parent the
    user declared for it. *)
Theorem manager_calls_are_declared check_mode fuel (user_topology : UserTopology) s r s' :
  manager_containers_create client check_mode fuel user_topology s = (r, s') ->
  exists cs, calls s' = calls s ++ CallFilterTopology "root" :: cs /\
             Forall (declared user_topology) cs.
Proof.
  apply emits_manager.
  - intros other. exact I.
  - intros _ name spec key Hget. now exists spec.
Qed.

(** X11: in check mode a run of the manager never calls [add_container],
    whatever the client does and however the run ends. *)
Theorem dry_run_never_creates fuel (user_topology : UserTopology) s r s' :
  manager_containers_create client true fuel user_topology s = (r, s') ->
  exists cs, calls s' = calls s ++ CallFilterTopology "root" :: cs /\
             Forall is_lookup cs /\ adds (calls s') = adds (calls s).
Proof.
  intros Hrun.
  destruct (@emits_manager true fuel user_topology is_lookup s r s') as (cs & E & Hcs).
  - intros other. exact I.
  - discriminate.
  - exact Hrun.
  - exists cs. split; [exact E |]. split; [exact Hcs |].
    rewrite E, adds_app. simpl.
    replace (adds cs) with (@nil string); [apply app_nil_r |].
    clear E. induction Hcs as [| c cs Hc _ IH]; [reflexivity |].
    destruct c; simpl; [exact IH | exact IH | destruct Hc].
Qed.

End Calls_and_exceptions.

Lemma manager_calls_are_declared_witness :
  let s := start (fresh_cvp "Tenant") in
  let run := manager_containers_create cvp_client false 3 scenario_A s in
  fst run = Ret {| count_new_containers := 2; list_new_containers := ["Fabric"; "Spines"] |} /\
  exists cs, calls (snd run) = calls s ++ CallFilterTopology "root" :: cs /\
             Forall (declared scenario_A) cs.
Proof.
  intros s run. split; [reflexivity |].
  apply (@manager_calls_are_declared Cvp cvp_client false 3 scenario_A s (fst run) (snd run)).
  reflexivity.
Defined.

Lemma dry_run_never_creates_witness :
  let s := start (fresh_cvp "Tenant") in
  let run := manager_containers_create cvp_client true 3 scenario_A s in
  fst run = Ret {| count_new_containers := 2; list_new_containers := ["Fabric"; "Fabric"] |} /\
  exists cs, calls (snd run) = calls s ++ CallFilterTopology "root" :: cs /\
             Forall is_lookup cs /\ adds (calls (snd run)) = adds (calls s).
Proof.
  intros s run. split; [reflexivity |].
  apply (@dry_run_never_creates Cvp cvp_client 3 scenario_A s (fst run) (snd run)).
  reflexivity.
Defined.

Lemma keys_get {V} (d : Py.dict V) name :
  In name (Py.keys d) -> exists v, Py.get name d = Some v.
Proof.
  unfold Py.keys. induction d as [| [k v] d IH]; simpl; [intros [] |].
  intros [<- | Hin].
  - rewrite String.eqb_refl. now exists v.
  - destruct (String.eqb name k); [now exists v | now apply IH].
Qed.

Section Exceptions.

Context {W : Type}.
Variable client : CvpClient W.

Lemma throws_ret {A} (a : A) P : throws (ret (W := W) a) P.
Proof. intros s e s' [=]. Qed.

Lemma throws_raise {A} e (P : exn -> Prop) : P e -> throws (raise (W := W) (A := A) e) P.
Proof. intros HP s e' s' [= <- _]. exact HP. Qed.

Lemma throws_bind {A B} (m : M W A) (k : A -> M W B) P :
  throws m P -> (forall a, throws (k a) P) -> throws (bind m k) P.
Proof.
  intros Hm Hk s e s'. unfold bind.
  destruct (m s) as [[a | e' |] s1] eqn:E; intros H.
  - exact (Hk a _ _ _ H).
  - injection H as <- <-. exact (Hm _ _ _ E).
  - discriminate.
Qed.

(** A bare [except] lets nothing of the guarded code through. *)
Lemma throws_try {A B} (m : M W A) (handler : M W B) (orelse : A -> M W B) P :
  throws handler P -> (forall a, throws (orelse a) P) ->
  throws (try_except_else m handler orelse) P.
Proof.
  intros Hh Ho s e s'. unfold try_except_else.
  destruct (m s) as [[a | e' |] s1]; intros H.
  - exact (Ho a _ _ _ H).
  - exact (Hh _ _ _ H).
  - discriminate.
Qed.

Lemma throws_bind_ret {A B} (a : A) (k : A -> M W B) P :
  throws (k a) P -> throws (bind (ret a) k) P.
Proof. intros Hk s e s' H. exact (Hk s e s' H). Qed.

Lemma throws_is_container_exist name P : throws (is_container_exist client name) P.
Proof.
  unfold is_container_exist, try_except. apply throws_try; [apply throws_ret |].
  intros a. apply throws_ret.
Qed.

Lemma throws_container_get_id name :
  throws (container_get_id client name) (eq (KeyError "key")).
Proof.
  unfold container_get_id, try_except. apply throws_bind.
  - apply throws_try; [apply throws_ret | intros a; apply throws_ret].
  - intros [d |]; [| apply throws_ret].
    destruct (Py.get "key" d); [apply throws_ret | now apply throws_raise].
Qed.

Lemma throws_container_create check_mode name parent :
  throws (container_create client check_mode name parent) (eq (KeyError "key")).
Proof.
  unfold container_create. apply throws_bind; [apply throws_is_container_exist |].
  intros [|]; [| apply throws_ret].
  apply throws_bind; [apply throws_container_get_id |].
  intros parent_id. apply throws_bind; [| intros ids; apply throws_ret].
  destruct check_mode; [apply throws_ret |].
  apply throws_try; [apply throws_ret |].
  intros resp. destruct (String.eqb _ _); apply throws_ret.
Qed.

Lemma throws_create_step check_mode (user_topology : UserTopology) acc name :
  In name (Py.keys user_topology) ->
  throws (create_step client check_mode user_topology acc name) (eq (KeyError "key")).
Proof.
  intros Hin. destruct (keys_get _ _ Hin) as [spec Hget].
  unfold create_step, topology_parent. destruct acc as [counter created].
  rewrite Hget. apply throws_bind_ret.
  apply throws_bind; [apply throws_is_container_exist |].
  intros [|]; [| apply throws_ret].
  apply throws_bind; [apply throws_is_container_exist |].
  intros [|]; simpl; [apply throws_ret |].
  apply throws_bind_ret. apply throws_bind; [apply throws_container_create |].
  intros action_result. destruct (success action_result); apply throws_ret.
Qed.

Lemma throws_create_loop check_mode (user_topology : UserTopology) names :
  incl names (Py.keys user_topology) ->
  forall acc,
  throws (create_loop client check_mode user_topology names acc) (eq (KeyError "key")).
Proof.
  induction names as [| name names IH]; intros Hincl acc; simpl; [apply throws_ret |].
  apply throws_bind.
  - apply throws_create_step. apply Hincl. now left.
  - apply IH. intros x Hx. apply Hincl. now right.
Qed.

(** X12: no failure of the client leaves the manager as such: the only
    exception a run can end with is the [KeyError('key')] of
    [container_get_id]. *)
Theorem manager_raises_only_key_error check_mode fuel (user_topology : UserTopology)
    s e s' :
  manager_containers_create client check_mode fuel user_topology s = (Raise e, s') ->
  e = KeyError "key".
Proof.
  intros Hrun. symmetry. revert Hrun. revert s e s'.
  change (throws (manager_containers_create client check_mode fuel user_topology)
            (eq (KeyError "key"))).
  unfold manager_containers_create. apply throws_bind.
  - unfold container_get_root. apply throws_try; [apply throws_ret |].
    intros a. apply throws_ret.
  - intros root. unfold bind at 1, run_list_container_from_top.
    intros s e s'.
    destruct (list_container_from_top fuel user_topology root) as [order |] eqn:Horder;
      [| discriminate].
    apply throws_bind; [| intros acc; apply throws_ret].
    apply throws_create_loop. exact (list_container_from_top_keys _ _ _ Horder).
Qed.

End Exceptions.

Lemma manager_raises_only_key_error_witness :
  let run := manager_containers_create (faulty cvp_client) false 3 scenario_A
               (start (fresh_cvp "Tenant", [false; false; false; false; true])) in
  exists e, run = (Raise e, snd run) /\ e = KeyError "key".
Proof.
  intros run. exists (KeyError "key"). split; [reflexivity |].
  apply (@manager_raises_only_key_error _ (faulty cvp_client) false 3 scenario_A
           (start (fresh_cvp "Tenant", [false; false; false; false; true]))
           (KeyError "key") (snd run)).
  reflexivity.
Defined.

(** ** Runs against a server that does what it is asked *)

Section Well_behaved_runs.

Context {W : Type}.
Variable client : CvpClient W.
Variable root : string.
Variable ok : W -> Prop.
Hypothesis WB : well_behaved client root ok.

(** Outside check mode, the turn for a container whose parent is there: a
    container that is there costs two lookups, one that is not is created
    and counted. *)
Lemma wb_create_step_cases (user_topology : UserTopology) acc name spec s :
  Py.get name user_topology = Some spec ->
  ok (world s) ->
  present client (world s) (parent_container spec) ->
  exists acc' s',
    create_step client false user_topology acc name s = (Ret acc', s') /\
    ok (world s') /\ present client (world s') name /\
    (forall other, present client (world s) other -> present client (world s') other) /\
    ((present client (world s) name /\ acc' = acc /\
      adds (calls s') = adds (calls s)) \/
     (~ present client (world s) name /\
      acc' = ((fst acc + 1)%Z, snd acc ++ [name]) /\
      adds (calls s') = adds (calls s) ++ [name])).
Proof.
  intros Hget Hok Hparent.
  pose proof (wb_found WB s Hok Hparent) as E1.
  set (s1 := logged s (CallGetContainerByName (parent_container spec))) in *.
  assert (Hok1 : ok (world s1)) by exact Hok.
  destruct (wb_is_container_exist WB name s1 Hok1) as ([|] & E2 & Hb).
  - exists acc, (logged s1 (CallGetContainerByName name)).
    split; [now apply create_step_found with (spec := spec) (s1 := s1) |].
    split; [exact Hok |]. split; [now apply Hb |]. split; [trivial |].
    left. split; [now apply Hb |]. split; [reflexivity |].
    unfold s1, logged. simpl. now rewrite !adds_one_lookup.
  - set (s2 := logged s1 (CallGetContainerByName name)) in *.
    assert (Hok2 : ok (world s2)) by exact Hok.
    assert (Hparent2 : present client (world s2) (parent_container spec)) by exact Hparent.
    pose proof (wb_found WB s2 Hok2 Hparent2) as E3.
    set (s3 := logged s2 (CallGetContainerByName (parent_container spec))) in *.
    assert (Hok3 : ok (world s3)) by exact Hok.
    assert (Hparent3 : present client (world s3) (parent_container spec)) by exact Hparent.
    destruct (wb_container_get_id WB s3 Hok3 Hparent3) as [key E4].
    set (s4 := logged s3 (CallGetContainerByName (parent_container spec))) in *.
    destruct (wb_add WB name (parent_container spec) (Some key) _ Hok)
      as (resp & w' & Eadd & Hok' & Hname & Hmono).
    exists ((fst acc + 1)%Z, snd acc ++ [name]).
    exists {| world := w';
              calls := calls s4
                       ++ [CallAddContainer name (parent_container spec) (Some key)] |}.
    split; [| split; [exact Hok' | split; [exact Hname | split; [exact Hmono |]]]].
    + apply create_step_counts with (spec := spec) (s1 := s1) (s2 := s2)
        (action_result :=
           {| success := true;
              taskIDs := if String.eqb (data_status resp) "success"
                         then TaskIds (data_taskIds resp) else UNSET;
              container := name |}); trivial.
      unfold container_create.
      rewrite (bind_ret_l _ _ _ E3). rewrite (bind_ret_l _ _ _ E4).
      unfold bind, try_except_else, api_add_container, remote, ret.
      change (world s4) with (world s). rewrite Eadd.
      now destruct (String.eqb (data_status resp) "success").
    + right. split; [| split; [reflexivity |]].
      * intros Hp. apply Hb in Hp. discriminate.
      * simpl. rewrite adds_app. unfold s4, s3, s2, s1, logged. simpl.
        now rewrite !adds_one_lookup.
Qed.

Lemma wb_create_loop_cases (user_topology : UserTopology) names :
  forall before acc s,
  ok (world s) ->
  (forall name, In name before -> present client (world s) name) ->
  (forall l1 name l2, names = l1 ++ name :: l2 ->
     exists spec, Py.get name user_topology = Some spec /\
       (parent_container spec = root \/ In (parent_container spec) (before ++ l1))) ->
  exists acc' s' picked,
    create_loop client false user_topology names acc s = (Ret acc', s') /\
    ok (world s') /\
    (forall name, In name (before ++ names) -> present client (world s') name) /\
    (forall other, present client (world s) other -> present client (world s') other) /\
    snd acc' = snd acc ++ picked /\
    adds (calls s') = adds (calls s) ++ picked /\
    NoDup picked /\
    (forall name, In name picked -> In name names /\ ~ present client (world s) name).
Proof.
  induction names as [| name names IH]; intros before acc s Hok Hbefore Hnames.
  - exists acc, s, []. rewrite !app_nil_r.
    repeat split; auto; try constructor; destruct H.
  - destruct (Hnames [] name names eq_refl) as (spec & Hget & Hpar).
    rewrite app_nil_r in Hpar.
    assert (Hparent : present client (world s) (parent_container spec)).
    { destruct Hpar as [-> | Hin]; [exact (wb_root WB _ Hok) | now apply Hbefore]. }
    destruct (@wb_create_step_cases user_topology acc name spec s Hget Hok Hparent)
      as (acc1 & s1 & Hstep & Hok1 & Hname & Hmono & Hcase).
    destruct (IH (before ++ [name]) acc1 s1 Hok1)
      as (acc' & s' & picked & Hloop & Hok' & Hall & Hmono' & Hl & Hc & Hnd & Hpicked).
    + intros m Hm. apply in_app_or in Hm as [Hm | [<- | []]]; auto.
    + intros l1 m l2 E.
      destruct (Hnames (name :: l1) m l2) as (spec' & Hget' & Hpar');
        [now rewrite E |].
      exists spec'. split; [exact Hget' |]. now rewrite <- app_assoc.
    + assert (Hrun : create_loop client false user_topology (name :: names) acc s
                     = (Ret acc', s'))
        by (cbn [create_loop]; now rewrite (bind_ret_l _ _ _ Hstep)).
      assert (Hall' : forall m, In m (before ++ name :: names) ->
                                present client (world s') m)
        by (intros m Hm; apply Hall; now rewrite <- app_assoc).
      destruct Hcase as [(Hthere & -> & Hadds) | (Habsent & -> & Hadds)].
      * exists acc', s', picked.
        split; [exact Hrun |]. split; [exact Hok' |]. split; [exact Hall' |].
        split; [auto |]. split; [exact Hl |]. split; [now rewrite Hc, Hadds |].
        split; [exact Hnd |].
        intros m Hm. destruct (Hpicked m Hm) as [Hin Hnot].
        split; [now right | auto].
      * exists acc', s', (name :: picked).
        split; [exact Hrun |]. split; [exact Hok' |]. split; [exact Hall' |].
        split; [auto |].
        split; [rewrite Hl; simpl; now rewrite <- app_assoc |].
        split; [rewrite Hc, Hadds; now rewrite <- app_assoc |].
        split.
        -- constructor; [| exact Hnd].
           intros Hin. destruct (Hpicked name Hin) as [_ Hnot]. now apply Hnot.
        -- intros m [<- | Hm]; [split; [now left | exact Habsent] |].
           destruct (Hpicked m Hm) as [Hin Hnot]. split; [now right | auto].
Qed.


(** In check mode, a turn of the loop for a declared container returns and
    leaves the server alone. *)
Lemma wb_dry_step (user_topology : UserTopology) acc name spec s :
  Py.get name user_topology = Some spec ->
  ok (world s) ->
  exists acc' s',
    create_step client true user_topology acc name s = (Ret acc', s') /\
    world s' = world s.
Proof.
  intros Hget Hok.
  destruct (wb_is_container_exist WB (parent_container spec) s Hok) as ([|] & E1 & Hb1).
  2: { exists acc, (logged s (CallGetContainerByName (parent_container spec))).
       split; [| reflexivity].
       now apply create_step_parent_missing with (spec := spec). }
  set (s1 := logged s (CallGetContainerByName (parent_container spec))) in *.
  assert (Hparent : present client (world s) (parent_container spec)) by now apply Hb1.
  assert (Hok1 : ok (world s1)) by exact Hok.
  destruct (wb_is_container_exist WB name s1 Hok1) as ([|] & E2 & Hb2).
  - exists acc, (logged s1 (CallGetContainerByName name)).
    split; [| reflexivity].
    now apply create_step_found with (spec := spec) (s1 := s1).
  - set (s2 := logged s1 (CallGetContainerByName name)) in *.
    assert (Hok2 : ok (world s2)) by exact Hok.
    assert (Hparent2 : present client (world s2) (parent_container spec)) by exact Hparent.
    pose proof (wb_found WB s2 Hok2 Hparent2) as E3.
    set (s3 := logged s2 (CallGetContainerByName (parent_container spec))) in *.
    assert (Hok3 : ok (world s3)) by exact Hok.
    assert (Hparent3 : present client (world s3) (parent_container spec)) by exact Hparent.
    destruct (wb_container_get_id WB s3 Hok3 Hparent3) as [key E4].
    exists ((fst acc + 1)%Z, snd acc ++ [name]),
           (logged s3 (CallGetContainerByName (parent_container spec))).
    split; [| reflexivity].
    apply create_step_counts with (spec := spec) (s1 := s1) (s2 := s2)
      (action_result := {| success := true; taskIDs := UNSET; container := name |});
      trivial.
    unfold container_create.
    rewrite (bind_ret_l _ _ _ E3). now rewrite (bind_ret_l _ _ _ E4).
Qed.

Lemma wb_dry_loop (user_topology : UserTopology) names :
  incl names (Py.keys user_topology) ->
  forall acc s, ok (world s) ->
  exists acc' s',
    create_loop client true user_topology names acc s = (Ret acc', s') /\
    world s' = world s.
Proof.
  induction names as [| name names IH]; intros Hincl acc s Hok.
  - now exists acc, s.
  - destruct (keys_get _ _ (Hincl name (or_introl eq_refl))) as [spec Hget].
    destruct (@wb_dry_step user_topology acc name spec s Hget Hok) as (acc1 & s1 & Hstep & Hw1).
    destruct (IH (fun x Hx => Hincl x (or_intror Hx)) acc1 s1) as (acc' & s' & Hloop & Hw).
    + now rewrite Hw1.
    + exists acc', s'. split; [| now rewrite Hw, Hw1].
      cbn [create_loop]. now rewrite (bind_ret_l _ _ _ Hstep).
Qed.


End Well_behaved_runs.



(** ** The [__main__] block of cv_container_v3 *)

Lemma manager_count_is_length {W} (client : CvpClient W) check_mode fuel
    (user_topology : UserTopology) s result s' :
  manager_containers_create client check_mode fuel user_topology s = (Ret result, s') ->
  count_new_containers result = Z.of_nat (List.length (list_new_containers result)).
Proof.
  unfold manager_containers_create. intros H.
  apply bind_inv in H as (root & s1 & _ & H).
  apply bind_inv in H as (order & s2 & _ & H).
  apply bind_inv in H as (acc & s3 & Hloop & H).
  injection H as <- _. simpl.
  apply create_loop_shape in Hloop as (picked & _ & Hl & Hc).
  simpl in Hl, Hc. now rewrite Hl, Hc.
Qed.

Section Main_facts.

Context {W : Type}.
Variable client : CvpClient W.
Variable check_mode : bool.
Variables HAS_CVPRAC HAS_JSONSCHEMA : bool.
Variable validate_cv_inputs : UserTopology -> bool.

(** X15: when the module ends in [exit_json], both libraries were there and
    the input passed validation; [changed] is set exactly when
    [creation_result] is, and then the mode is [merge] or [override] and the
    result counts at least one container, as many as it lists. With any other
    mode nothing is called on the server and [changed] is [False]. *)
Theorem container_main_exit fuel topology mode s result s' :
  cv_container_v3_main client check_mode HAS_CVPRAC HAS_JSONSCHEMA validate_cv_inputs
    fuel topology mode s = (Ret (ExitJson result), s') ->
  HAS_CVPRAC = true /\ HAS_JSONSCHEMA = true /\ validate_cv_inputs topology = true /\
  (changed result = true <-> data_creation_result result <> None) /\
  (forall creation_data, data_creation_result result = Some creation_data ->
     mode_creates mode = true /\
     (0 < count_new_containers creation_data)%Z /\
     count_new_containers creation_data
     = Z.of_nat (List.length (list_new_containers creation_data)) /\
     list_new_containers creation_data <> []) /\
  (mode_creates mode = false -> s' = s /\ changed result = false).
Proof.
  unfold cv_container_v3_main, module_definitions.
  destruct HAS_CVPRAC; [rewrite bind_ret; simpl | discriminate].
  destruct HAS_JSONSCHEMA; simpl; [| discriminate].
  destruct (validate_cv_inputs topology); simpl; [| discriminate].
  destruct (mode_creates mode).
  - unfold bind.
    destruct (manager_containers_create client check_mode fuel topology s)
      as [[creation_data | e |] s1] eqn:Hrun; try discriminate.
    pose proof (manager_count_is_length _ _ _ _ _ Hrun) as Hlen.
    destruct (count_new_containers creation_data >? 0)%Z eqn:Hpos;
      intros [= <- <-]; simpl; repeat split; try discriminate; try congruence;
      match goal with
      | H : Some _ = Some _ |- _ => injection H as <-
      end;
      apply Z.gtb_lt in Hpos; try lia.
    intros Hnil. rewrite Hnil in Hlen. simpl in Hlen. lia.
  - intros [= <- <-]. simpl. repeat split; try discriminate; congruence.
Qed.

(** X16: a run of the module ends in [fail_json] only for a missing
    jsonschema, and then before anything is asked of the server. Without
    cvprac the run never gets to its [fail_json]: the function definitions
    raise [NameError] first. And the message for input that does not pass
    validation is never sent: building the log line before it reads
    [params['configlets']], and [KeyError('configlets')] ends the run, before
    anything is asked of the server too. *)
Theorem container_main_failures fuel topology mode s :
  (forall msg s',
     cv_container_v3_main client check_mode HAS_CVPRAC HAS_JSONSCHEMA validate_cv_inputs
       fuel topology mode s = (Ret (FailJson msg), s') ->
     s' = s /\ msg = JsonschemaRequired /\ HAS_CVPRAC = true /\ HAS_JSONSCHEMA = false) /\
  (HAS_CVPRAC = false ->
   cv_container_v3_main client check_mode HAS_CVPRAC HAS_JSONSCHEMA validate_cv_inputs
     fuel topology mode s = (Raise (NameError "CvpClient"), s)) /\
  (HAS_CVPRAC = true -> HAS_JSONSCHEMA = true -> validate_cv_inputs topology = false ->
   cv_container_v3_main client check_mode HAS_CVPRAC HAS_JSONSCHEMA validate_cv_inputs
     fuel topology mode s = (Raise (KeyError "configlets"), s)).
Proof.
  unfold cv_container_v3_main, module_definitions. split; [| split].
  - intros msg s'.
    destruct HAS_CVPRAC; [rewrite bind_ret; simpl | discriminate].
    destruct HAS_JSONSCHEMA; simpl; [| intros [= <- <-]; auto].
    destruct (validate_cv_inputs topology); simpl; [| discriminate].
    destruct (mode_creates mode); [| discriminate].
    unfold bind.
    destruct (manager_containers_create client check_mode fuel topology s)
      as [[creation_data | e |] s1]; try discriminate.
    destruct (count_new_containers creation_data >? 0)%Z; discriminate.
  - intros ->. reflexivity.
  - intros -> -> ->. reflexivity.
Qed.

End Main_facts.

Lemma container_main_exit_witness :
  let run := cv_container_v3_main cvp_client false true true (fun _ => true) 3
               scenario_A "merge" (start (fresh_cvp "Tenant")) in
  let result :=
    {| changed := true; data_taskIds_out := []; data_tasks_out := [];
       data_creation_result :=
         Some {| count_new_containers := 2;
                 list_new_containers := ["Fabric"; "Spines"] |} |} in
  run = (Ret (ExitJson result), snd run) /\
  true = true /\ true = true /\ true = true /\
  (changed result = true <-> data_creation_result result <> None) /\
  (forall creation_data, data_creation_result result = Some creation_data ->
     mode_creates "merge" = true /\
     (0 < count_new_containers creation_data)%Z /\
     count_new_containers creation_data
     = Z.of_nat (List.length (list_new_containers creation_data)) /\
     list_new_containers creation_data <> []) /\
  (mode_creates "merge" = false ->
   snd run = start (fresh_cvp "Tenant") /\ changed result = false).
Proof.
  intros run result. split; [reflexivity |].
  apply (@container_main_exit Cvp cvp_client false true true (fun _ => true) 3
           scenario_A "merge" (start (fresh_cvp "Tenant")) result (snd run)).
  reflexivity.
Defined.

(** ** generic_tools: [CvElement] *)

Lemma contains_get {V} (k : string) (d : Py.dict V) :
  generic_tools.contains k d = match Py.get k d with Some _ => true | None => false end.
Proof.
  unfold generic_tools.contains, Py.keys.
  induction d as [| [k' v] d IH]; simpl; [reflexivity |].
  destruct (String.eqb k k'); simpl; [reflexivity | exact IH].
Qed.

(** X17: the properties of [CvElement] never raise: [name] and [key] give the
    value stored under ['name'] and ['key'], and [None] when the dictionary
    has no such key; [data] gives the dictionary back. *)
Theorem CvElement_properties {V} (cv_data : generic_tools.CvElement V) :
  generic_tools.name cv_data = Ret (Py.get "name" cv_data) /\
  generic_tools.key cv_data = Ret (Py.get "key" cv_data) /\
  generic_tools.data cv_data = cv_data.
Proof.
  unfold generic_tools.name, generic_tools.key, generic_tools.item, generic_tools.data.
  rewrite !contains_get.
  destruct (Py.get "name" cv_data); destruct (Py.get "key" cv_data); auto.
Qed.

Lemma container_main_failures_witness :
  let s := start (fresh_cvp "Tenant") in
  cv_container_v3_main cvp_client false true false (fun _ => true) 3 scenario_A "merge" s
  = (Ret (FailJson JsonschemaRequired), s) /\
  s = s /\ JsonschemaRequired = JsonschemaRequired /\ true = true /\ false = false.
Proof.
  intros s. split; [reflexivity |].
  apply (proj1 (@container_main_failures Cvp cvp_client false true false (fun _ => true)
                  3 scenario_A "merge" s) JsonschemaRequired s).
  reflexivity.
Defined.
